(** * IoT backend (iot-backend/server.js): ingestion, validation, queries

    A shallow embedding of the Express handlers of [server.js] and of the
    part of the JavaScript runtime they call ([parseFloat], [parseInt],
    [isNaN], [Math.min], [Math.max], [Number.prototype.toFixed],
    [Array.prototype.reverse], [||], [===]), followed by the properties of
    the handlers.

    - JavaScript Numbers are IEEE 754 binary64 values: Rocq's primitive
      [float].  Decimal text is converted with correct rounding (nearest,
      ties to even), computed on [SpecFloat] and brought back with
      [SF2Prim].
    - JavaScript strings are Rocq strings; text outside ASCII appears in
      its UTF-8 encoding.
    - The Supabase client is the interface [Supabase]: the handlers are
      written against it by explicit state passing, with exceptions as a
      completion type, so that [try { ... } catch] reads as in the source.
    - The middleware in front of the handlers (helmet, cors, the JSON body
      parser and the two rate limiters) is not part of the model: a handler
      is what runs once a request has reached it. *)

From Stdlib Require Import QArith Qabs Qpower Lqa.
From Stdlib Require Import DecimalFacts DecimalN DecimalPos.
From Stdlib Require Import ZArith List String Ascii Bool Lia Floats.
From Stdlib Require Import DecimalString.
Import ListNotations.

#[local] Set Warnings "-register-all".

Local Open Scope string_scope.
Local Open Scope Z_scope.

(** ** The JavaScript runtime *)

Module JS.

(** A Number is a binary64 value. *)
Definition number : Set := float.

(** [true] when both floats are the same value, [-0] and [+0] told apart
    ([Object.is] on Numbers, all NaNs being one). *)
Definition same_number (x y : number) : bool := PrimFloat.Leibniz.eqb x y.

(** The Number value for the integer [z]: [z] rounded to nearest, ties to
    even. *)
Definition number_of_Z (z : Z) : number :=
  SF2Prim (binary_normalize prec emax z 0 false).

(** The Number value for [m * 10^e] with the sign [neg], [m >= 0]: a zero
    of that sign for a zero mantissa, otherwise the nearest binary64 value,
    ties to even. For a negative exponent the quotient [m / 10^(-e)] is
    rounded once, by the division of [SpecFloat] applied to the two
    integers. *)
Definition number_of_decimal (neg : bool) (m e : Z) : number :=
  match m with
  | Zpos p =>
      if 0 <=? e
      then SF2Prim (binary_normalize prec emax
                      (if neg then - (m * 10 ^ e) else m * 10 ^ e) 0 neg)
      else SF2Prim (SFdiv prec emax (S754_finite neg p 0)
                      (S754_finite false (Z.to_pos (10 ^ (- e))) 0))
  | _ => if neg then neg_zero else zero
  end.

(** *** Scanning numeric text *)

Definition is_digit (c : ascii) : bool :=
  let n := Z.of_nat (nat_of_ascii c) in (48 <=? n) && (n <=? 57).

Definition digit_value (c : ascii) : Z := Z.of_nat (nat_of_ascii c) - 48.

(** The value of a hexadecimal digit, if [c] is one. *)
Definition hex_value (c : ascii) : option Z :=
  let n := Z.of_nat (nat_of_ascii c) in
  if (48 <=? n) && (n <=? 57) then Some (n - 48)
  else if (65 <=? n) && (n <=? 70) then Some (n - 55)
  else if (97 <=? n) && (n <=? 102) then Some (n - 87)
  else None.

(** [read_digits s acc cnt]: the longest run of decimal digits at the head
    of [s], accumulated after [acc]; the number of digits read is added to
    [cnt]; the third component is the rest of the text. *)
Fixpoint read_digits (s : string) (acc : Z) (cnt : Z) : Z * Z * string :=
  match s with
  | String c s' =>
      if is_digit c then read_digits s' (10 * acc + digit_value c) (cnt + 1)
      else (acc, cnt, s)
  | EmptyString => (acc, cnt, s)
  end.

Fixpoint read_hex_digits (s : string) (acc : Z) (cnt : Z) : Z * Z * string :=
  match s with
  | String c s' =>
      match hex_value c with
      | Some d => read_hex_digits s' (16 * acc + d) (cnt + 1)
      | None => (acc, cnt, s)
      end
  | EmptyString => (acc, cnt, s)
  end.

(** An optional sign: [true] for [-]. *)
Definition read_sign (s : string) : bool * string :=
  match s with
  | String c s' =>
      if Ascii.eqb c "-" then (true, s')
      else if Ascii.eqb c "+" then (false, s')
      else (false, s)
  | EmptyString => (false, s)
  end.

(** The text after the prefix [p], when [s] starts with [p]. *)
Fixpoint strip_prefix (p s : string) : option string :=
  match p, s with
  | EmptyString, _ => Some s
  | String a p', String b s' => if Ascii.eqb a b then strip_prefix p' s' else None
  | String _ _, EmptyString => None
  end.

(** Leading white space and line terminators ([StrWhiteSpaceChar]): TAB,
    LF, VT, FF, CR, SP, and in UTF-8 U+00A0, U+1680, U+2000..U+200A,
    U+2028, U+2029, U+202F, U+205F, U+3000 and U+FEFF. *)
Definition white_prefix (s : string) : option string :=
  match s with
  | String c s1 =>
      let n := Z.of_nat (nat_of_ascii c) in
      if ((9 <=? n) && (n <=? 13)) || (n =? 32) then Some s1
      else
        match s1 with
        | String c2 s2 =>
            let n2 := Z.of_nat (nat_of_ascii c2) in
            if (n =? 194) && (n2 =? 160) then Some s2
            else
              match s2 with
              | String c3 s3 =>
                  let n3 := Z.of_nat (nat_of_ascii c3) in
                  if ((n =? 225) && (n2 =? 154) && (n3 =? 128))
                     || ((n =? 226) && (n2 =? 128)
                         && (((128 <=? n3) && (n3 <=? 138))
                             || (n3 =? 168) || (n3 =? 169) || (n3 =? 175)))
                     || ((n =? 226) && (n2 =? 129) && (n3 =? 159))
                     || ((n =? 227) && (n2 =? 128) && (n3 =? 128))
                     || ((n =? 239) && (n2 =? 187) && (n3 =? 191))
                  then Some s3
                  else None
              | EmptyString => None
              end
        | EmptyString => None
        end
  | EmptyString => None
  end.

(** [TrimString(s, start)]; the fuel is the length of the text, one white
    character at least being removed per step. *)
Fixpoint trim_start_fuel (fuel : nat) (s : string) : string :=
  match fuel with
  | O => s
  | S fuel' =>
      match white_prefix s with
      | Some s' => trim_start_fuel fuel' s'
      | None => s
      end
  end.

Definition trim_start (s : string) : string :=
  trim_start_fuel (String.length s) s.

(** *** [StrDecimalLiteral] *)

(** What the longest prefix that is a [StrDecimalLiteral] denotes. *)
Variant literal : Set :=
| LitInfinity (neg : bool)
| LitDecimal (neg : bool) (mantissa : Z) (exponent : Z).

(** [ExponentPart]: [e] or [E], an optional sign and at least one digit,
    with the text that follows; anything less is not part of the literal:
    the exponent is 0 and the text is left as it is. *)
Definition read_exponent (s : string) : Z * string :=
  match s with
  | String c s1 =>
      if (Ascii.eqb c "e" || Ascii.eqb c "E")%bool then
        let '(eneg, s2) := read_sign s1 in
        let '(ev, ecnt, s3) := read_digits s2 0 0 in
        if ecnt =? 0 then (0, s) else (if eneg then - ev else ev, s3)
      else (0, s)
  | EmptyString => (0, s)
  end.

(** The longest prefix of [s] that satisfies [StrDecimalLiteral]:
    [Infinity], [digits . digits? exp?], [. digits exp?] or [digits exp?],
    after an optional sign; with the text after it. [None] when no prefix
    does. *)
Definition decimal_prefix (s : string) : option (literal * string) :=
  let '(neg, s1) := read_sign s in
  match strip_prefix "Infinity" s1 with
  | Some rest => Some (LitInfinity neg, rest)
  | None =>
      let '(ip, icnt, s2) := read_digits s1 0 0 in
      let fraction :=
        match s2 with
        | String c s3 => if Ascii.eqb c "." then Some s3 else None
        | EmptyString => None
        end in
      match fraction with
      | Some s3 =>
          let '(m, cnt, s4) := read_digits s3 ip icnt in
          if cnt =? 0 then None
          else
            let '(e, s5) := read_exponent s4 in
            Some (LitDecimal neg m (e - (cnt - icnt)), s5)
      | None =>
          if icnt =? 0 then None
          else
            let '(e, s5) := read_exponent s2 in
            Some (LitDecimal neg ip e, s5)
      end
  end.

Definition number_of_literal (l : literal) : number :=
  match l with
  | LitInfinity neg => if neg then neg_infinity else infinity
  | LitDecimal neg m e => number_of_decimal neg m e
  end.

(** [parseFloat] applied to a string. *)
Definition parseFloat_string (s : string) : number :=
  match decimal_prefix (trim_start s) with
  | Some (l, _) => number_of_literal l
  | None => nan
  end.

(** [parseInt(s)] with no radix, applied to a string: [None] stands for
    NaN, [Some z] for the integer read (radix 16 after [0x] or [0X], else
    radix 10; the longest run of digits; signed).

    The result is kept as the integer read rather than as its binary64
    rounding. The one caller tests it for truthiness and takes
    [Math.min(_, 1000)], and both agree on the integer and on its rounding:
    the rounding of [z] is zero exactly when [z = 0] (and [-0] is falsy
    like [0]), rounding is monotone and leaves the integers up to 1000
    unchanged. What [Math.min] passes on is [z] itself from [-2^53]
    upwards, binary64 holding these integers exactly or the cap applying;
    further down it is the rounding of [z], or [-Infinity]. *)
Definition parseInt_string (s : string) : option Z :=
  let '(neg, s1) := read_sign (trim_start s) in
  let '(z, cnt, _) :=
    match s1 with
    | String c (String x s2) =>
        if (Ascii.eqb c "0" && (Ascii.eqb x "x" || Ascii.eqb x "X"))%bool
        then read_hex_digits s2 0 0
        else read_digits s1 0 0
    | _ => read_digits s1 0 0
    end in
  if cnt =? 0 then None else Some (if neg then - z else z).

(** *** Numbers to text *)

(** The decimal digits of a natural number. *)
Definition decimal_text (n : Z) : string :=
  NilZero.string_of_uint (N.to_uint (Z.to_N n)).

Definition decimal_length (n : Z) : Z := Z.of_nat (String.length (decimal_text n)).

(** [Number::toString] for a finite [x >= 10^21], given as the integer
    [big] it denotes: the digits [s] (with [k] digits, [k] as small as
    possible) and the exponent [n] such that [s * 10^(n-k)] rounds to [x],
    the candidate nearest to [x] being chosen and, of two equally near, the
    even one; printed as [d.ddde+N]. *)
Definition shortest_candidates (x : number) (big k : Z) : list (Z * Z) :=
  let nd := decimal_length big in
  filter
    (fun sn : Z * Z =>
       let '(s, n) := sn in
       (10 ^ (k - 1) <=? s) && (s <? 10 ^ k)
       && same_number (number_of_decimal false s (n - k)) x)
    (flat_map (fun n => let q := big / 10 ^ (n - k) in [(q, n); (q + 1, n)])
              [nd; nd + 1]).

Definition nearer (big k : Z) (a b : Z * Z) : Z * Z :=
  let dist (sn : Z * Z) := Z.abs (fst sn * 10 ^ (snd sn - k) - big) in
  if dist b <? dist a then b
  else if (dist b =? dist a) && Z.even (fst b) then b
  else a.

Fixpoint shortest_digits (fuel : nat) (x : number) (big k : Z) : option (Z * Z) :=
  match fuel with
  | O => None
  | S fuel' =>
      match shortest_candidates x big k with
      | c :: cs => Some (fold_left (nearer big k) cs c)
      | [] => shortest_digits fuel' x big (k + 1)
      end
  end.

Definition exponential_text (x : number) (big : Z) : string :=
  match shortest_digits 17 x big 1 with
  | Some (s, n) =>
      match decimal_text s with
      | String d EmptyString => String d ("e+" ++ decimal_text (n - 1))
      | String d ds => String d ("." ++ ds ++ "e+" ++ decimal_text (n - 1))
      | EmptyString => EmptyString
      end
  | None => decimal_text big
  end.

(** [n / 100] written with two fraction digits, [n >= 0]. *)
Definition fixed2_text (n : Z) : string :=
  decimal_text (n / 100) ++ "." ++ decimal_text (n / 10 mod 10)
                                  ++ decimal_text (n mod 10).

(** The integer nearest to [100 * m * 2^e], the larger one of two equally
    near ([m >= 0]). *)
Definition hundredths (m e : Z) : Z :=
  if 0 <=? e then 100 * m * 2 ^ e
  else (200 * m + 2 ^ (- e)) / (2 * 2 ^ (- e)).

(** [x.toFixed(2)]: the text of a non-finite [x]; otherwise the sign, and
    for a magnitude of [10^21] or more its [Number::toString], else the
    integer [n] for which [n / 100 - |x|] is as close to zero as possible
    (the larger [n] of two), written with two fraction digits. *)
Definition toFixed2 (x : number) : string :=
  match Prim2SF x with
  | S754_nan => "NaN"
  | S754_infinity s => if s then "-Infinity" else "Infinity"
  | S754_zero _ => "0.00"
  | S754_finite s m e =>
      let sign := if s then "-" else "" in
      if (0 <=? e) && (10 ^ 21 <=? Zpos m * 2 ^ e)
      then sign ++ exponential_text (abs x) (Zpos m * 2 ^ e)
      else sign ++ fixed2_text (hundredths (Zpos m) e)
  end.

(** *** [isNaN], [Math.min], [Math.max] on Numbers *)

Definition isNaN (x : number) : bool := is_nan x.

(** [Math.min(...xs)]: [lowest] starts as [+Infinity]; a NaN argument makes
    the result NaN; [-0] is below [+0]. The bound an engine puts on the
    number of arguments of a call is not modelled. *)
Fixpoint min_from (lowest : number) (xs : list number) : number :=
  match xs with
  | [] => lowest
  | x :: rest =>
      if is_nan x then nan
      else
        let lowest := if same_number x neg_zero && same_number lowest zero
                      then neg_zero else lowest in
        min_from (if (x <? lowest)%float then x else lowest) rest
  end.

Definition Math_min (xs : list number) : number := min_from infinity xs.

(** [Math.max(...xs)]: [highest] starts as [-Infinity]; [+0] is above [-0]. *)
Fixpoint max_from (highest : number) (xs : list number) : number :=
  match xs with
  | [] => highest
  | x :: rest =>
      if is_nan x then nan
      else
        let highest := if same_number x zero && same_number highest neg_zero
                       then zero else highest in
        max_from (if (highest <? x)%float then x else highest) rest
  end.

Definition Math_max (xs : list number) : number := max_from neg_infinity xs.

(** *** Values *)

(** The values a parsed JSON text, a row of the store or a response body
    can hold. An object is the list of its own properties. *)
Inductive value : Type :=
| VUndefined
| VNull
| VBool (b : bool)
| VNumber (x : number)
| VString (s : string)
| VArray (items : list value)
| VObject (fields : list (string * value)).

(** What a [throw] carries: a [TypeError] of the runtime, or a value thrown
    by the program. *)
Variant exn : Type :=
| TypeError
| Thrown (v : value).

Variant completion (A : Type) : Type :=
| Normal (a : A)
| Throw (e : exn).
Arguments Normal {A} a.
Arguments Throw {A} e.

(** [ToBoolean]. *)
Definition truthy (v : value) : bool :=
  match v with
  | VUndefined | VNull => false
  | VBool b => b
  | VNumber x => negb (is_nan x || is_zero x)
  | VString s => negb (String.eqb s "")
  | VArray _ | VObject _ => true
  end.

Definition is_undefined (v : value) : bool :=
  match v with VUndefined => true | _ => false end.

(** The own property [k] of an object, first binding. *)
Fixpoint own_property (k : string) (fields : list (string * value)) : option value :=
  match fields with
  | [] => None
  | (k', v) :: rest => if String.eqb k k' then Some v else own_property k rest
  end.

(** [v.k] for a property [k] that no prototype defines: a [TypeError] on
    [undefined] and [null], the own property of an object, [undefined]
    elsewhere. *)
Definition get (v : value) (k : string) : completion value :=
  match v with
  | VUndefined | VNull => Throw TypeError
  | VObject fields =>
      Normal (match own_property k fields with Some x => x | None => VUndefined end)
  | _ => Normal VUndefined
  end.

(** [ToString(v)] throws exactly when [v] is, or an array reaches through
    [join], an object with an own [toString] property: such a property of a
    parsed JSON text is never callable, and [Object.prototype.valueOf]
    returns the object itself, so [OrdinaryToPrimitive] ends in a
    [TypeError]. *)
Fixpoint toString_throws (v : value) : bool :=
  match v with
  | VObject fields => existsb (fun kv => String.eqb (fst kv) "toString") fields
  | VArray items => existsb toString_throws items
  | _ => false
  end.

(** [parseFloat(v)] where [ToString(v)] does not throw.
    - A string is scanned.
    - A Number [x] gives [x] back, [-0] becoming [+0]: [ToString(x)] is the
      shortest decimal text that rounds to [x], with ["NaN"], ["Infinity"]
      and ["0"] for either zero.
    - An array is joined with commas, so that the text scanned is that of
      its first item, cut by the comma that follows.
    - [undefined], [null], booleans and other objects give text that starts
      with no number. *)
Fixpoint parseFloat_text (v : value) : number :=
  match v with
  | VNumber x => if is_zero x then zero else x
  | VString s => parseFloat_string s
  | VArray (x :: _) => parseFloat_text x
  | _ => nan
  end.

Definition parseFloat (v : value) : completion number :=
  if toString_throws v then Throw TypeError else Normal (parseFloat_text v).

(** *** Query strings *)

(** A parameter of [req.query], as the query parser builds it: a string, an
    array (a repeated parameter) or an object (a bracketed one). *)
Inductive query_value : Type :=
| QString (s : string)
| QArray (items : list query_value)
| QObject (fields : list (string * query_value)).

Fixpoint query_text (q : query_value) : string :=
  match q with
  | QString s => s
  | QArray items => String.concat "," (map query_text items)
  | QObject _ => "[object Object]"
  end.

(** [parseInt(q)] for a parameter that may be absent ([undefined]). *)
Definition parseInt (q : option query_value) : option Z :=
  match q with
  | Some v => parseInt_string (query_text v)
  | None => parseInt_string "undefined"
  end.

End JS.

(** ** The Supabase client *)

Module Store.
Import JS.

(** What [await supabase.from('readings')...] resolves to: [{ data, error }]
    with exactly one of the two set. *)
Variant result (A : Type) : Type :=
| Data (data : A)
| Error (error : value).
Arguments Data {A} data.
Arguments Error {A} error.

(** The object the webhook passes to [insert]. *)
Record Row : Type := {
  temperature : number;
  humidity : number;
  created_at : value;
  source : string
}.

(** The three requests [server.js] sends, over a store whose state is [Db].
    - [insert_select row]:
      [.insert([row]).select()], the rows written or an error;
    - [select_recent k]:
      [.select('*').order('created_at', { ascending: false }).limit(k)];
    - [select_since t]:
      [.select('temperature, humidity').gte('created_at', t)].
    Reading leaves the state as it is. *)
Class Supabase (Db : Type) : Type := {
  insert_select : Row -> Db -> result (list value) * Db;
  select_recent : Z -> Db -> result (list value);
  select_since : string -> Db -> result (list value)
}.

(** The error PostgREST answers with when [.single()] is asked of a result
    that is not exactly one row. *)
Definition PGRST116 : value :=
  VObject [("code", VString "PGRST116");
           ("message", VString "JSON object requested, multiple (or no) rows returned")].

(** [.single()]: the one row as an object instead of an array; the query
    result must be exactly one row, otherwise an error is returned. *)
Definition single (r : result (list value)) : result value :=
  match r with
  | Data [row] => Data row
  | Data _ => Error PGRST116
  | Error e => Error e
  end.

(** *** A store in memory

    The table in insertion order and a flag for an unreachable service:
    the instance the properties below are run on. Rows are taken to be
    written in time order, so that newest-first is latest-written first;
    [created_at] is compared as ISO 8601 text. *)
Record MemDb : Type := {
  rows : list Row;
  offline : bool
}.

Definition row_value (r : Row) : value :=
  VObject [("temperature", VNumber (temperature r));
           ("humidity", VNumber (humidity r));
           ("created_at", created_at r);
           ("source", VString (source r))].

Definition measures (r : Row) : value :=
  VObject [("temperature", VNumber (temperature r));
           ("humidity", VNumber (humidity r))].

Definition unavailable : value :=
  VObject [("message", VString "TypeError: fetch failed")].

Definition bad_range : value :=
  VObject [("message", VString "Requested range not satisfiable")].

Definition not_before (t : string) (r : Row) : bool :=
  match created_at r with
  | VString s => String.leb t s
  | _ => false
  end.

#[export] Instance mem_supabase : Supabase MemDb := {
  insert_select row db :=
    if offline db then (Error unavailable, db)
    else (Data [row_value row], {| rows := rows db ++ [row]; offline := false |});
  select_recent k db :=
    if offline db then Error unavailable
    else if k <? 0 then Error bad_range
    else Data (map row_value (firstn (Z.to_nat k) (rev (rows db))));
  select_since t db :=
    if offline db then Error unavailable
    else Data (map measures (filter (not_before t) (rows db)))
}.

End Store.

(** ** server.js *)

Module Server.
Import JS Store.

Record Request : Type := {
  headers : list (string * string);
  body : value;
  query : list (string * query_value)
}.

Record Response : Type := {
  status : Z;
  json : value
}.

(** [req.headers[name]]: the header, or [undefined]. *)
Fixpoint header (name : string) (hs : list (string * string)) : option string :=
  match hs with
  | [] => None
  | (k, v) :: rest => if String.eqb name k then Some v else header name rest
  end.

(** [req.query[name]]. *)
Fixpoint param (name : string) (q : list (string * query_value)) : option query_value :=
  match q with
  | [] => None
  | (k, v) :: rest => if String.eqb name k then Some v else param name rest
  end.

(** [a !== b] for two values that are each a string or [undefined]. *)
Definition strict_neq (a b : option string) : bool :=
  match a, b with
  | Some x, Some y => negb (String.eqb x y)
  | None, None => false
  | _, _ => true
  end.

(** [res.status(code).json({ error: message })]. *)
Definition error_response (code : Z) (message : string) : Response :=
  {| status := code; json := VObject [("error", VString message)] |}.

(** *** Handlers as state passing with exceptions *)

Section Handlers.
Context {Db : Type} {supabase : Supabase Db}.

(** A computation over the store that completes normally or throws. *)
Definition M (A : Type) : Type := Db -> completion A * Db.

Definition ret {A} (a : A) : M A := fun db => (Normal a, db).

Definition bind {A B} (m : M A) (f : A -> M B) : M B :=
  fun db =>
    match m db with
    | (Normal a, db') => f a db'
    | (Throw e, db') => (Throw e, db')
    end.

Definition throw {A} (e : exn) : M A := fun db => (Throw e, db).

(** A step of the runtime that does not touch the store. *)
Definition lift {A} (c : completion A) : M A := fun db => (c, db).

(** [await] of a request that writes: the answer, and the state it leaves. *)
Definition await_write {A} (request : Db -> result A * Db) : M (result A) :=
  fun db => let '(r, db') := request db in (Normal r, db').

(** [await] of a request that reads. *)
Definition await_read {A} (request : Db -> result A) : M (result A) :=
  fun db => (Normal (request db), db).

(** [try { body } catch (error) { handler }]. *)
Definition try_catch (body : M Response) (handler : exn -> Response) : Db -> Response * Db :=
  fun db =>
    match body db with
    | (Normal r, db') => (r, db')
    | (Throw e, db') => (handler e, db')
    end.

Local Notation "x <- m ;; k" := (bind m (fun x => k))
  (at level 61, m at next level, right associativity).

(** [data[0]]. *)
Definition first_row (data : list value) : value :=
  match data with
  | row :: _ => row
  | [] => VUndefined
  end.

(** [temp < -50 || temp > 100 || hum < 0 || hum > 100], after the two
    [isNaN] tests. *)
Definition invalid_reading (temp hum : number) : bool :=
  (isNaN temp || isNaN hum
   || (temp <? -50)%float || (100 <? temp)%float
   || (hum <? 0)%float || (100 <? hum)%float)%bool.

(** [app.post('/webhook/thingspeak', ...)]; [WEBHOOK_SECRET] is
    [process.env.WEBHOOK_SECRET] and [now] is [new Date().toISOString()]. *)
Definition webhook_thingspeak (WEBHOOK_SECRET : option string) (now : string)
    (req : Request) : Db -> Response * Db :=
  try_catch
    (let secret := header "x-webhook-secret" (headers req) in
     if strict_neq secret WEBHOOK_SECRET then
       ret (error_response 401 "Unauthorized")
     else
       temperature <- lift (get (body req) "temperature") ;;
       humidity <- lift (get (body req) "humidity") ;;
       created_at <- lift (get (body req) "created_at") ;;
       if (is_undefined temperature || is_undefined humidity)%bool then
         ret (error_response 400 "Faltan campos requeridos")
       else
         temp <- lift (parseFloat temperature) ;;
         hum <- lift (parseFloat humidity) ;;
         if invalid_reading temp hum then
           ret (error_response 400 "Valores fuera de rango")
         else
           inserted <- await_write
                         (insert_select
                            {| temperature := temp;
                               humidity := hum;
                               created_at := if truthy created_at then created_at
                                             else VString now;
                               source := "thingspeak" |}) ;;
           match inserted with
           | Error _ => ret (error_response 500 "Error al guardar datos")
           | Data data =>
               ret {| status := 201;
                      json := VObject [("success", VBool true);
                                       ("data", first_row data);
                                       ("message", VString "Datos guardados correctamente")] |}
           end)
    (fun _ => error_response 500 "Error interno del servidor").

(** [parseInt(req.query.limit) || 100]: NaN and 0 are falsy. *)
Definition requested_limit (req : Request) : Z :=
  match parseInt (param "limit" (query req)) with
  | Some 0 | None => 100
  | Some n => n
  end.

Definition maxLimit : Z := 1000.

(** [app.get('/api/readings', ...)]. *)
Definition get_readings (req : Request) : Db -> Response * Db :=
  try_catch
    (let limit := requested_limit req in
     selected <- await_read (select_recent (Z.min limit maxLimit)) ;;
     match selected with
     | Error e => throw (Thrown e)
     | Data data =>
         ret {| status := 200;
                json := VObject [("success", VBool true);
                                 ("count", VNumber (number_of_Z (Z.of_nat (List.length data))));
                                 ("data", VArray (rev data))] |}
     end)
    (fun _ => error_response 500 "Error al obtener datos").

(** [app.get('/api/readings/latest', ...)]. *)
Definition get_latest (req : Request) : Db -> Response * Db :=
  try_catch
    (selected <- await_read (fun db => single (select_recent 1 db)) ;;
     match selected with
     | Error e => throw (Thrown e)
     | Data data =>
         ret {| status := 200;
                json := VObject [("success", VBool true); ("data", data)] |}
     end)
    (fun _ => error_response 500 "Error al obtener datos").

(** *** Today's statistics *)

(** A value together with the divisors of the divisions that computed it,
    in the order they were performed. *)
Definition traced (A : Type) : Type := A * list Z.

(** [a / n], [n] being a length. *)
Definition divide (a : number) (n : Z) : traced number :=
  ((a / number_of_Z n)%float, [n]).

(** [xs.reduce((a, b) => a + b, 0)]. *)
Definition sum (xs : list number) : number := fold_left PrimFloat.add xs zero.

(** [(xs.reduce((a, b) => a + b, 0) / xs.length).toFixed(2)]. *)
Definition average (xs : list number) : traced string :=
  let '(q, divisors) := divide (sum xs) (Z.of_nat (List.length xs)) in
  (toFixed2 q, divisors).

(** [data.map(r => parseFloat(r[k]))]. *)
Fixpoint column (k : string) (data : list value) : completion (list number) :=
  match data with
  | [] => Normal []
  | r :: rest =>
      match get r k with
      | Throw e => Throw e
      | Normal v =>
          match parseFloat v with
          | Throw e => Throw e
          | Normal x =>
              match column k rest with
              | Throw e => Throw e
              | Normal xs => Normal (x :: xs)
              end
          end
      end
  end.

(** The statistics sent for a day without readings. *)
Definition no_stats : value :=
  VObject [("count", VNumber zero);
           ("temperature", VObject [("min", VNull); ("max", VNull); ("avg", VNull)]);
           ("humidity", VObject [("min", VNull); ("max", VNull); ("avg", VNull)])].

(** [{ min: Math.min(...xs), max: Math.max(...xs), avg: ... }]. *)
Definition extrema (xs : list number) : traced value :=
  let '(avg, divisors) := average xs in
  (VObject [("min", VNumber (Math_min xs));
            ("max", VNumber (Math_max xs));
            ("avg", VString avg)],
   divisors).

(** The body of [/api/stats/today] once the rows of the day are there: the
    object passed as [data], or what is thrown on the way. *)
Definition today_stats (data : list value) : completion (traced value) :=
  if Z.of_nat (List.length data) =? 0 then Normal (no_stats, [])
  else
    match column "temperature" data with
    | Throw e => Throw e
    | Normal temps =>
        match column "humidity" data with
        | Throw e => Throw e
        | Normal hums =>
            let '(t, dt) := extrema temps in
            let '(h, dh) := extrema hums in
            Normal (VObject [("count", VNumber (number_of_Z (Z.of_nat (List.length data))));
                             ("temperature", t);
                             ("humidity", h)],
                    (dt ++ dh)%list)
        end
    end.

(** [app.get('/api/stats/today', ...)]; [today] is the ISO text of the
    local midnight before the request. *)
Definition get_stats_today (today : string) (req : Request) : Db -> Response * Db :=
  try_catch
    (selected <- await_read (select_since today) ;;
     match selected with
     | Error e => throw (Thrown e)
     | Data data =>
         stats <- lift (today_stats data) ;;
         ret {| status := 200;
                json := VObject [("success", VBool true); ("data", fst stats)] |}
     end)
    (fun _ => error_response 500 "Error al obtener estadísticas").

End Handlers.

End Server.

(** ** server.js: the routes

    The order in which [server.js] registers its routes, with the defaults
    of Express for matching: a route registered with [app.get] also answers
    HEAD, letter case is ignored and one trailing slash is optional. The
    request is what the middleware has passed on. *)

Module Routes.
Import JS Store Server.

Variant method : Type :=
| GET
| HEAD
| POST
| OtherMethod (name : string).

Record Incoming : Type := {
  verb : method;
  path : string;
  request : Request
}.

Definition lower_char (c : ascii) : ascii :=
  let n := nat_of_ascii c in
  if (Nat.leb 65 n && Nat.leb n 90)%bool then ascii_of_nat (n + 32) else c.

Fixpoint lower (s : string) : string :=
  match s with
  | EmptyString => EmptyString
  | String c s' => String (lower_char c) (lower s')
  end.

(** [s] without its last character when that is a slash. *)
Fixpoint chomp (s : string) : string :=
  match s with
  | EmptyString => EmptyString
  | String c EmptyString => if Ascii.eqb c "/" then EmptyString else s
  | String c s' => String c (chomp s')
  end.

(** [route] (in lower case) matches the path of the request. *)
Definition matches (route p : string) : bool :=
  String.eqb (chomp (lower p)) (chomp route).

(** A route of [app.get]. *)
Definition is_get (m : method) : bool :=
  match m with GET | HEAD => true | _ => false end.

Definition is_post (m : method) : bool :=
  match m with POST => true | _ => false end.

Section App.
Context {Db : Type} {supabase : Supabase Db}.

(** [app.get('/', ...)]: the health check. *)
Definition health (now : string) (req : Request) : Db -> Response * Db :=
  fun db =>
    ({| status := 200;
        json := VObject [("status", VString "OK");
                         ("service", VString "IoT Backend ESP8266");
                         ("timestamp", VString now)] |}, db).

(** [app.use((req, res) => ...)], after the routes. *)
Definition not_found (req : Request) : Db -> Response * Db :=
  fun db => (error_response 404 "Endpoint no encontrado", db).

(** The routes in the order of registration; [now] is the time of the
    request as ISO text and [today] the local midnight before it. *)
Definition app (WEBHOOK_SECRET : option string) (now today : string)
    (inc : Incoming) : Db -> Response * Db :=
  if (is_get (verb inc) && matches "/" (path inc))%bool then
    health now (request inc)
  else if (is_post (verb inc) && matches "/webhook/thingspeak" (path inc))%bool then
    webhook_thingspeak WEBHOOK_SECRET now (request inc)
  else if (is_get (verb inc) && matches "/api/readings" (path inc))%bool then
    get_readings (request inc)
  else if (is_get (verb inc) && matches "/api/readings/latest" (path inc))%bool then
    get_latest (request inc)
  else if (is_get (verb inc) && matches "/api/stats/today" (path inc))%bool then
    get_stats_today today (request inc)
  else
    not_found (request inc).

End App.

End Routes.

(** ** src/App.js: the dashboard

    The state [data] of the component and what [fetchData] does to it, given
    what [fetch] and [response.json()] resolve to. Rendering is left out
    but for the choice between the last reading and the loading text.
    [slice] counts characters, which are bytes here: it is the [slice] of
    JavaScript on ASCII text. *)

Module Dashboard.
Import JS.

Definition and_then {A B} (c : completion A) (k : A -> completion B) : completion B :=
  match c with
  | Normal a => k a
  | Throw e => Throw e
  end.

Local Notation "x <- c ;; k" := (and_then c (fun x => k))
  (at level 61, c at next level, right associativity).

(** [v.slice(start, stop)] for [0 <= start <= stop]: a string and an array
    have the method; on any other value the call throws. *)
Definition slice (start stop : nat) (v : value) : completion value :=
  match v with
  | VString s => Normal (VString (String.substring start (stop - start) s))
  | VArray items => Normal (VArray (firstn (stop - start) (skipn start items)))
  | _ => Throw TypeError
  end.

(** The function passed to [json.feeds.map]. *)
Definition reading_of_feed (feed : value) : completion value :=
  created_at <- get feed "created_at" ;;
  fecha <- slice 11 19 created_at ;;
  field1 <- get feed "field1" ;;
  humedad <- parseFloat field1 ;;
  field2 <- get feed "field2" ;;
  temperatura <- parseFloat field2 ;;
  Normal (VObject [("fecha", fecha);
                   ("humedad", VNumber humedad);
                   ("temperatura", VNumber temperatura)]).

(** [items.map(f)] for an [f] that may throw. *)
Fixpoint map_throwing (f : value -> completion value) (items : list value)
  : completion (list value) :=
  match items with
  | [] => Normal []
  | x :: rest =>
      y <- f x ;;
      ys <- map_throwing f rest ;;
      Normal (y :: ys)
  end.

(** [v.map(f)]: only an array has the method. *)
Definition map_value (f : value -> completion value) (v : value)
  : completion (list value) :=
  match v with
  | VArray items => map_throwing f items
  | _ => Throw TypeError
  end.

(** [fetchData]: [fetched] is what [await response.json()] gives, or what
    [fetch] or it rejected with; [data] is the state. [setData] is reached
    only when nothing has thrown; the [catch] logs and leaves the state. *)
Definition fetchData (fetched : completion value) (data : list value) : list value :=
  match (json <- fetched ;;
         feeds <- get json "feeds" ;;
         map_value reading_of_feed feeds) with
  | Normal feeds => feeds
  | Throw _ => data
  end.

(** [data[data.length - 1]]. *)
Definition ultimo (data : list value) : value :=
  match data with
  | [] => VUndefined
  | _ => last data VUndefined
  end.

(** What is shown under the title. *)
Variant view : Type :=
| ShowReading (temperatura humedad : value)
| Loading.

(** [ultimo ? <>...</> : <p>Cargando datos desde ThingSpeak...</p>]; the
    elements of [data] are objects, so [ultimo.temperatura] does not
    throw. *)
Definition shown (data : list value) : completion view :=
  let u := ultimo data in
  if truthy u then
    temperatura <- get u "temperatura" ;;
    humedad <- get u "humedad" ;;
    Normal (ShowReading temperatura humedad)
  else Normal Loading.

End Dashboard.

(** ** The firmware: [loop]

    One pass of [loop] as the list of what it does, in order. The two
    readings are binary32 values; [written] is what
    [ThingSpeak.writeFields] returns if it is called. *)

Module Firmware.
Import JS.

Variant action : Type :=
| Print (text : string)
| Println (text : string)
| PrintFloat (x : spec_float)
| SetField (field : Z) (x : spec_float)
| WriteFields (channel : Z) (key : string)
| Delay (ms : Z).

Definition myChannelNumber : Z := 3145537.

Definition myWriteAPIKey : string := "NMKR9MC4IXMHP2JV".

(** [isnan(x)]. *)
Definition isnan (x : spec_float) : bool :=
  match x with S754_nan => true | _ => false end.

(** [String(x)] for an [int]. *)
Definition String_of_int (x : Z) : string :=
  if x <? 0 then "-" ++ decimal_text (- x) else decimal_text x.

(** [loop()], with [humedad] and [temperatura] what the sensor returns. *)
Definition loop (humedad temperatura : spec_float) (written : Z) : list action :=
  if (isnan humedad || isnan temperatura)%bool then
    [Println "Error al leer el sensor DHT!"]
  else
    [Print "Temperatura: ";
     PrintFloat temperatura;
     Print " °C  |  Humedad: ";
     PrintFloat humedad;
     Println " %";
     SetField 1 humedad;
     SetField 2 temperatura;
     WriteFields myChannelNumber myWriteAPIKey;
     Println (if written =? 200
              then "Datos enviados correctamente a ThingSpeak"
              else "Error al enviar datos. Código HTTP: " ++ String_of_int written);
     Delay 20000].

End Firmware.

(** * The vocabulary of the properties *)

Import JS Store Server.

(** ** The order of binary64 values

    [<?] and [<=?] on primitive floats are specified by [SFcompare], which
    is the lexicographic comparison of a key: the class of the value
    (infinities, negative, zero, positive), its exponent and its mantissa,
    the last two negated for a negative value. *)

Definition SFkey (x : spec_float) : Z * Z * Z :=
  match x with
  | S754_nan => (0, 0, 0)
  | S754_zero _ => (0, 0, 0)
  | S754_infinity s => (if s then -2 else 2, 0, 0)
  | S754_finite false m e => (1, e, Zpos m)
  | S754_finite true m e => (-1, - e, Zneg m)
  end.

Definition key (x : number) : Z * Z * Z := SFkey (Prim2SF x).

Definition key_le (a b : Z * Z * Z) : Prop :=
  let '(c1, e1, m1) := a in
  let '(c2, e2, m2) := b in
  c1 < c2 \/ (c1 = c2 /\ (e1 < e2 \/ (e1 = e2 /\ m1 <= m2))).

Definition key_lt (a b : Z * Z * Z) : Prop :=
  let '(c1, e1, m1) := a in
  let '(c2, e2, m2) := b in
  c1 < c2 \/ (c1 = c2 /\ (e1 < e2 \/ (e1 = e2 /\ m1 < m2))).

Definition SFnan (x : spec_float) : bool :=
  match x with S754_nan => true | _ => false end.

(** [m] is an element of [xs] that no element is below. *)
Definition least (m : number) (xs : list number) : Prop :=
  In m xs /\ forall x, In x xs -> (m <=? x)%float = true.

(** [m] is an element of [xs] that no element is above. *)
Definition greatest (m : number) (xs : list number) : Prop :=
  In m xs /\ forall x, In x xs -> (x <=? m)%float = true.

(** No element is NaN. *)
Definition all_numbers (xs : list number) : Prop :=
  Forall (fun x => isNaN x = false) xs.

(** ** The values of Numbers and of decimal text

    What a Number and a text denote, written without the functions of the
    runtime above: the properties compare these with what the code
    computes. *)

(** The real number a finite Number is: [+-m * 2^e]. *)
Definition exact (x : number) : option Q :=
  match Prim2SF x with
  | S754_zero _ => Some 0%Q
  | S754_finite s m e => Some (inject_Z (if s then Zneg m else Zpos m) * 2 ^ e)%Q
  | _ => None
  end.

Fixpoint exact_values (xs : list number) : option (list Q) :=
  match xs with
  | [] => Some []
  | x :: rest =>
      match exact x, exact_values rest with
      | Some v, Some vs => Some (v :: vs)
      | _, _ => None
      end
  end.

(** The integer a Number is, if it is one. *)
Definition integer_of (x : number) : option Z :=
  match Prim2SF x with
  | S754_zero _ => Some 0
  | S754_finite s m e =>
      if 0 <=? e then Some ((if s then Zneg m else Zpos m) * 2 ^ e)
      else if Zpos m mod 2 ^ (- e) =? 0
           then Some ((if s then Zneg m else Zpos m) / 2 ^ (- e))
           else None
  | _ => None
  end.

(** The digit a character is. *)
Definition digit_of (c : ascii) : option Z :=
  let n := Z.of_nat (nat_of_ascii c) in
  if (48 <=? n) && (n <=? 57) then Some (n - 48) else None.

(** The natural number that the digits at the head of [t] denote, read
    after [acc], and the text that follows them. *)
Fixpoint digits_value (t : string) (acc : Z) : Z * string :=
  match t with
  | String c t' =>
      match digit_of c with
      | Some d => digits_value t' (10 * acc + d)
      | None => (acc, t)
      end
  | EmptyString => (acc, t)
  end.

(** [u] starts with a digit, and with [0] only when the point follows. *)
Definition plain_numeral (u : string) : bool :=
  match u with
  | String c r =>
      match digit_of c with
      | Some d => negb (d =? 0)
                  || match r with String c2 _ => Ascii.eqb c2 "." | EmptyString => false end
      | None => false
      end
  | EmptyString => false
  end.

(** What a text of the form [ddd.dd] or [-ddd.dd] denotes: whether it has
    the minus sign, and the number after it counted in hundredths. Any
    other text, one with a needless leading zero included, denotes
    nothing. *)
Definition fixed2_value (t : string) : option (bool * Z) :=
  let '(neg, u) := match t with
                   | String c r => if Ascii.eqb c "-" then (true, r) else (false, t)
                   | EmptyString => (false, t)
                   end in
  let '(w, rest) := digits_value u 0 in
  match rest with
  | String p (String a (String b EmptyString)) =>
      match digit_of a, digit_of b with
      | Some x, Some y =>
          if Ascii.eqb p "." && plain_numeral u
          then Some (neg, 100 * w + 10 * x + y)
          else None
      | _, _ => None
      end
  | _ => None
  end.

(** [n] is the integer nearest to [100 * v], the larger one of two equally
    near. *)
Definition nearest_hundredth (v : Q) (n : Z) : Prop :=
  (inject_Z n - (1 # 2) <= 100 * v /\ 100 * v < inject_Z n + (1 # 2))%Q.

(** [text] is the Number [x], of magnitude below [10^21], rounded to two
    decimal places: it has the minus sign exactly when [x] is below zero,
    and the number after the sign is the hundredth nearest to the
    magnitude of [x]. *)
Definition rounded_to_hundredths (x : number) (text : string) : Prop :=
  forall v : Q,
    exact x = Some v ->
    (Qabs v < inject_Z (10 ^ 21))%Q ->
    exists (s : bool) (n : Z),
      fixed2_value text = Some (s, n)
      /\ (s = true <-> (v < 0)%Q)
      /\ nearest_hundredth (Qabs v) n.

(** The arithmetic mean of rational numbers. *)
Definition mean (vs : list Q) : Q :=
  (fold_right Qplus 0 vs / inject_Z (Z.of_nat (List.length vs)))%Q.

(** [text] is the arithmetic mean of the values [xs] rounded to two decimal
    places: the numbers that [xs] are, added and divided without rounding,
    and a hundredth nearest to the result, either one on a tie. *)
Definition mean_rounded (xs : list number) (text : string) : Prop :=
  exists (vs : list Q) (s : bool) (n : Z),
    exact_values xs = Some vs
    /\ fixed2_value text = Some (s, n)
    /\ (Qabs (100 * mean vs - inject_Z (if s then - n else n)) <= 1 # 2)%Q.

(** ** Text after a literal *)

(** A character that cannot continue a decimal literal. *)
Definition not_numeric (c : ascii) : bool :=
  negb (is_digit c || Ascii.eqb c "." || Ascii.eqb c "e" || Ascii.eqb c "E").

(** Text that is empty or starts with such a character. *)
Definition junk (s : string) : Prop :=
  match s with
  | String c _ => not_numeric c = true
  | EmptyString => True
  end.

(** The characters a [StrDecimalLiteral] can start with. *)
Definition starts_literal (c : ascii) : bool :=
  is_digit c || Ascii.eqb c "." || Ascii.eqb c "+" || Ascii.eqb c "-" || Ascii.eqb c "I".

(** ** Handlers *)

(** The webhook once the secret has matched and the body has been
    destructured: presence, coercion, the range test, then the insert. *)
Definition validated {Db} {SB : Supabase Db} (now : string)
    (temperature humidity created_at : value) (db : Db) : Response * Db :=
  if (is_undefined temperature || is_undefined humidity)%bool then
    (error_response 400 "Faltan campos requeridos", db)
  else
    match parseFloat temperature with
    | Throw _ => (error_response 500 "Error interno del servidor", db)
    | Normal temp =>
        match parseFloat humidity with
        | Throw _ => (error_response 500 "Error interno del servidor", db)
        | Normal hum =>
            if invalid_reading temp hum then
              (error_response 400 "Valores fuera de rango", db)
            else
              match insert_select
                      {| temperature := temp;
                         humidity := hum;
                         created_at := if truthy created_at then created_at
                                       else VString now;
                         source := "thingspeak" |} db with
              | (Error _, db') => (error_response 500 "Error al guardar datos", db')
              | (Data data, db') =>
                  ({| status := 201;
                      json := VObject [("success", VBool true);
                                       ("data", first_row data);
                                       ("message", VString "Datos guardados correctamente")] |},
                   db')
              end
        end
    end.

(** The readings a response carries: the items of its [data] array. *)
Definition readings_in (r : Response) : list value :=
  match json r with
  | VObject fields =>
      match own_property "data" fields with
      | Some (VArray items) => items
      | _ => []
      end
  | _ => []
  end.

(** The contract of [.limit(k)] for [k >= 0]: at most [k] rows come back. *)
Definition honours_limit {Db} (SB : Supabase Db) : Prop :=
  forall (k : Z) (db : Db) (data : list value),
    0 <= k -> select_recent k db = Data data -> Z.of_nat (List.length data) <= k.

(** ** Requests and stores of the examples *)

(** A push with [secret] in the header and the two measures, nothing else,
    in the body. *)
Definition push (secret : option string) (temperature humidity : value) : Request :=
  {| headers := match secret with
                | Some s => [("x-webhook-secret", s)]
                | None => []
                end;
     body := VObject [("temperature", temperature); ("humidity", humidity)];
     query := [] |}.

(** A request that carries only a query string. *)
Definition query_request (q : list (string * query_value)) : Request :=
  {| headers := []; body := VObject []; query := q |}.

Definition noon : string := "2026-01-01T12:00:00.000Z".

Definition midnight : string := "2026-01-01T00:00:00.000Z".

Definition empty_db : MemDb := {| rows := []; offline := false |}.

Definition offline_db : MemDb := {| rows := []; offline := true |}.

Definition reading (at_time : string) (t h : number) : Row :=
  {| temperature := t; humidity := h; created_at := VString at_time; source := "thingspeak" |}.

(** Three readings of the day, written one after the other. *)
Definition three_readings : MemDb :=
  {| rows := [reading "2026-01-01T08:00:00.000Z" 20%float 40%float;
              reading "2026-01-01T09:00:00.000Z" 25%float 50%float;
              reading "2026-01-01T10:00:00.000Z" 30%float 60%float];
     offline := false |}.

(** Four readings of the day with the temperatures 47.5, 83.2, 29.3 and
    62.7, each as the Number its decimal text is read as. *)
Definition four_readings : MemDb :=
  {| rows := [reading "2026-01-01T08:00:00.000Z" 47.5%float 40%float;
              reading "2026-01-01T09:00:00.000Z" 0x1.4cccccccccccdp+6%float 50%float;
              reading "2026-01-01T10:00:00.000Z" 0x1.d4ccccccccccdp+4%float 60%float;
              reading "2026-01-01T11:00:00.000Z" 0x1.f59999999999ap+5%float 70%float];
     offline := false |}.

(** ** Readings, feeds and traces *)

Import Routes Dashboard Firmware.

(** The methods of the requests that come to the routes: the [cors]
    middleware ends an OPTIONS request itself, with 204, and Node gives a
    CONNECT request to no request listener. *)
Definition routed (m : method) : Prop :=
  m <> OtherMethod "OPTIONS" /\ m <> OtherMethod "CONNECT".

(** The invariants of a stored reading: both measures in range (hence
    numbers), the source tag, and a timestamp that is not falsy. *)
Definition valid_reading (r : Row) : Prop :=
  (-50 <=? temperature r)%float = true /\ (temperature r <=? 100)%float = true
  /\ (0 <=? humidity r)%float = true /\ (humidity r <=? 100)%float = true
  /\ source r = "thingspeak"
  /\ truthy (created_at r) = true.

(** What the webhook answers after the insert of [row]. *)
Definition after_insert {Db} {SB : Supabase Db} (row : Row) (db : Db) : Response * Db :=
  match insert_select row db with
  | (Data data, db') =>
      ({| status := 201;
          json := VObject [("success", VBool true);
                           ("data", first_row data);
                           ("message", VString "Datos guardados correctamente")] |},
       db')
  | (Error _, db') =>
      ({| status := 500; json := VObject [("error", VString "Error al guardar datos")] |},
       db')
  end.

(** Characters of ASCII, on which bytes and UTF-16 code units agree. *)
Definition ascii_text (s : string) : Prop :=
  Forall (fun c => (nat_of_ascii c < 128)%nat) (list_ascii_of_string s).

(** A feed the dashboard can read: [created_at] is a string and the text
    of the two fields can be taken. *)
Definition readable_feed (feed : value) : Prop :=
  exists (s : string) (field1 field2 : value),
    get feed "created_at" = Normal (VString s)
    /\ get feed "field1" = Normal field1
    /\ get feed "field2" = Normal field2
    /\ toString_throws field1 = false
    /\ toString_throws field2 = false.

(** The reading of a feed, [undefined] standing for a feed that throws. *)
Definition reading_or_undefined (feed : value) : value :=
  match reading_of_feed feed with
  | Normal r => r
  | Throw _ => VUndefined
  end.

(** The passes of [loop] the board makes one after the other, each with
    what the sensor and ThingSpeak return in it. *)
Definition passes (inputs : list (spec_float * spec_float * Z)) : list action :=
  flat_map (fun i => let '(humedad, temperatura, written) := i in
                     loop humedad temperatura written) inputs.

(** No [writeFields] follows another without a [delay] of 15 seconds or
    more in between; [waited] tells whether such a delay has passed since
    the last one. *)
Fixpoint spaced (waited : bool) (trace : list action) : bool :=
  match trace with
  | [] => true
  | Delay ms :: rest => spaced (waited || (15000 <=? ms)) rest
  | WriteFields _ _ :: rest => waited && spaced false rest
  | _ :: rest => spaced waited rest
  end.

(** * Properties *)

(** ** The runtime on examples *)

Example parseFloat_string_examples :
  parseFloat_string "23.5abc" = 23.5%float
  /\ parseFloat_string "  -.5e1x" = (-5)%float
  /\ parseFloat_string "5.e2" = 500%float
  /\ parseFloat_string "1e+" = 1%float
  /\ parseFloat_string "0x10" = 0%float
  /\ parseFloat_string "-Infinity!" = neg_infinity
  /\ parseFloat_string "1e999" = infinity
  /\ parseFloat_string "." = nan
  /\ parseFloat_string "abc" = nan
  /\ parseFloat_string "" = nan.
Proof. repeat split; reflexivity. Qed.

Example parseFloat_examples :
  parseFloat (VNumber 23.5%float) = Normal 23.5%float
  /\ parseFloat (VArray [VString "12"; VNumber 3%float]) = Normal 12%float
  /\ parseFloat VNull = Normal nan
  /\ parseFloat (VBool true) = Normal nan
  /\ parseFloat (VObject []) = Normal nan
  /\ parseFloat (VObject [("toString", VNumber 1%float)]) = Throw TypeError
  /\ parseFloat (VArray [VNumber 1%float; VObject [("toString", VNull)]]) = Throw TypeError.
Proof. repeat split; reflexivity. Qed.

Example parseInt_examples :
  parseInt (Some (QString "25")) = Some 25
  /\ parseInt (Some (QString " -12px")) = Some (-12)
  /\ parseInt (Some (QString "0x1f")) = Some 31
  /\ parseInt (Some (QString "1e3")) = Some 1
  /\ parseInt (Some (QString "5.9")) = Some 5
  /\ parseInt (Some (QArray [QString "7"; QString "9"])) = Some 7
  /\ parseInt (Some (QString "abc")) = None
  /\ parseInt (Some (QObject [("a", QString "1")])) = None
  /\ parseInt None = None.
Proof. repeat split; reflexivity. Qed.

Example toFixed2_examples :
  toFixed2 25%float = "25.00"
  /\ toFixed2 0.125%float = "0.13"
  /\ toFixed2 (-0.375)%float = "-0.38"
  /\ toFixed2 (-0.001953125)%float = "-0.00"
  /\ toFixed2 (-0)%float = "0.00"
  /\ toFixed2 1152921504606846976%float = "1152921504606846976.00"
  /\ toFixed2 0x1p70%float = "1.1805916207174113e+21"
  /\ toFixed2 nan = "NaN"
  /\ toFixed2 neg_infinity = "-Infinity".
Proof. repeat split; reflexivity. Qed.

Example Math_min_max_examples :
  Math_min [20; 25; 30]%float = 20%float
  /\ Math_max [20; 25; 30]%float = 30%float
  /\ same_number (Math_min [0; -0]%float) neg_zero = true
  /\ same_number (Math_max [-0; 0]%float) zero = true
  /\ Math_min [1; nan; 0]%float = nan
  /\ Math_min [] = infinity
  /\ Math_max [] = neg_infinity.
Proof. repeat split; reflexivity. Qed.

(** ** The order of binary64 values *)

Section NumberOrder.

Lemma SFcompare_key x y :
  SFnan x = false -> SFnan y = false ->
  exists c, SFcompare x y = Some c
    /\ (c = Lt <-> key_lt (SFkey x) (SFkey y))
    /\ (c = Gt <-> key_lt (SFkey y) (SFkey x)).
Proof.
  destruct x as [[]|[]| |[] m1 e1], y as [[]|[]| |[] m2 e2]; simpl; try discriminate;
    intros _ _; eexists; (split; [reflexivity|]);
    try (split; split; intro; try discriminate; try reflexivity; lia).
  - rewrite Pos.compare_cont_spec. simpl.
    destruct (Z.compare_spec e1 e2); destruct (Pos.compare_spec m1 m2); simpl;
      split; split; intro; try discriminate; try reflexivity; lia.
  - rewrite Pos.compare_cont_spec. simpl.
    destruct (Z.compare_spec e1 e2); destruct (Pos.compare_spec m1 m2); simpl;
      split; split; intro; try discriminate; try reflexivity; lia.
Qed.

Lemma SFcompare_nan_l y : SFcompare S754_nan y = None.
Proof. reflexivity. Qed.

Lemma SFcompare_nan_r x : SFcompare x S754_nan = None.
Proof. destruct x as [[]|[]| |[] m e]; reflexivity. Qed.

Lemma key_lt_irrefl k : ~ key_lt k k.
Proof. destruct k as [[c e] m]. simpl. lia. Qed.

Lemma key_le_refl k : key_le k k.
Proof. destruct k as [[c e] m]. simpl. lia. Qed.

Lemma key_le_trans a b c : key_le a b -> key_le b c -> key_le a c.
Proof.
  destruct a as [[c1 e1] m1], b as [[c2 e2] m2], c as [[c3 e3] m3]. simpl. lia.
Qed.

Lemma key_lt_le a b : key_lt a b -> key_le a b.
Proof. destruct a as [[c1 e1] m1], b as [[c2 e2] m2]. simpl. lia. Qed.

Lemma key_not_lt a b : ~ key_lt a b <-> key_le b a.
Proof. destruct a as [[c1 e1] m1], b as [[c2 e2] m2]. simpl. lia. Qed.

Lemma is_nan_spec (x : number) : is_nan x = SFnan (Prim2SF x).
Proof.
  unfold is_nan. rewrite eqb_spec. unfold SFeqb.
  destruct (SFnan (Prim2SF x)) eqn:E.
  - destruct (Prim2SF x); try discriminate. reflexivity.
  - destruct (SFcompare_key _ _ E E) as (c & -> & HLt & HGt).
    destruct c; try reflexivity.
    + exfalso. apply (key_lt_irrefl (SFkey (Prim2SF x))). now apply HLt.
    + exfalso. apply (key_lt_irrefl (SFkey (Prim2SF x))). now apply HGt.
Qed.

Lemma ltb_key (x y : number) :
  is_nan x = false -> is_nan y = false ->
  ((x <? y)%float = true <-> key_lt (key x) (key y)).
Proof.
  rewrite !is_nan_spec, ltb_spec. intros Hx Hy. unfold SFltb, key.
  destruct (SFcompare_key _ _ Hx Hy) as (c & -> & HLt & HGt).
  destruct c; split; intro H; try discriminate; try reflexivity.
  - apply HLt in H. discriminate.
  - now apply HLt.
  - apply HLt in H. discriminate.
Qed.

Lemma leb_key (x y : number) :
  is_nan x = false -> is_nan y = false ->
  ((x <=? y)%float = true <-> key_le (key x) (key y)).
Proof.
  rewrite !is_nan_spec, leb_spec. intros Hx Hy. unfold SFleb, key.
  destruct (SFcompare_key _ _ Hx Hy) as (c & -> & HLt & HGt).
  rewrite <- key_not_lt.
  destruct c; split; intro H; try discriminate; try reflexivity.
  - intro K. apply HGt in K. discriminate.
  - intro K. apply HGt in K. discriminate.
  - exfalso. apply H. now apply HGt.
Qed.

Lemma leb_not_nan (x y : number) :
  (x <=? y)%float = true -> is_nan x = false /\ is_nan y = false.
Proof.
  rewrite !is_nan_spec, leb_spec. unfold SFleb.
  destruct (Prim2SF x) eqn:Ex; try (rewrite SFcompare_nan_l; discriminate);
    destruct (Prim2SF y) eqn:Ey; try (rewrite SFcompare_nan_r; discriminate);
    intros _; split; reflexivity.
Qed.

Lemma ltb_not_nan (x y : number) :
  (x <? y)%float = true -> is_nan x = false /\ is_nan y = false.
Proof.
  rewrite !is_nan_spec, ltb_spec. unfold SFltb.
  destruct (Prim2SF x) eqn:Ex; try (rewrite SFcompare_nan_l; discriminate);
    destruct (Prim2SF y) eqn:Ey; try (rewrite SFcompare_nan_r; discriminate);
    intros _; split; reflexivity.
Qed.

(** [<=?] excludes the opposite strict comparison. *)
Lemma leb_ltb_false (x y : number) :
  (x <=? y)%float = true -> (y <? x)%float = false.
Proof.
  intros H. destruct (leb_not_nan _ _ H) as [Hx Hy].
  destruct (y <? x)%float eqn:E; [|reflexivity].
  apply (ltb_key _ _ Hy Hx) in E. apply (leb_key _ _ Hx Hy) in H.
  apply key_not_lt in H. now elim H.
Qed.

Lemma ltb_leb (x y : number) : (x <? y)%float = true -> (x <=? y)%float = true.
Proof.
  intros H. destruct (ltb_not_nan _ _ H) as [Hx Hy].
  apply (leb_key _ _ Hx Hy), key_lt_le. now apply (ltb_key _ _ Hx Hy).
Qed.

Lemma ltb_false_leb (x y : number) :
  is_nan x = false -> is_nan y = false ->
  (x <? y)%float = false -> (y <=? x)%float = true.
Proof.
  intros Hx Hy H. apply (leb_key _ _ Hy Hx), key_not_lt.
  intro K. apply (ltb_key _ _ Hx Hy) in K. congruence.
Qed.

Lemma leb_refl (x : number) : is_nan x = false -> (x <=? x)%float = true.
Proof. intros Hx. apply (leb_key _ _ Hx Hx), key_le_refl. Qed.

Lemma leb_trans (x y z : number) :
  (x <=? y)%float = true -> (y <=? z)%float = true -> (x <=? z)%float = true.
Proof.
  intros H1 H2.
  destruct (leb_not_nan _ _ H1) as [Hx Hy], (leb_not_nan _ _ H2) as [_ Hz].
  apply (leb_key _ _ Hx Hz).
  apply key_le_trans with (key y); [now apply (leb_key _ _ Hx Hy) | now apply (leb_key _ _ Hy Hz)].
Qed.

Lemma same_number_eq (x y : number) : same_number x y = true -> x = y.
Proof. apply FloatAxioms.Leibniz.eqb_spec. Qed.

Lemma not_below_infinity (x : number) :
  is_nan x = false -> (x <? infinity)%float = false -> x = infinity.
Proof.
  intros Hx H. apply ltb_false_leb in H; [|exact Hx|reflexivity].
  apply leb_key in H; [|reflexivity|exact Hx].
  apply Prim2SF_inj. unfold key in H.
  change (Prim2SF infinity) with (S754_infinity false) in *.
  destruct (Prim2SF x) as [s|[]| |[] m e]; simpl in H; try lia. reflexivity.
Qed.

Lemma not_above_neg_infinity (x : number) :
  is_nan x = false -> (neg_infinity <? x)%float = false -> x = neg_infinity.
Proof.
  intros Hx H. apply ltb_false_leb in H; [|reflexivity|exact Hx].
  apply leb_key in H; [|exact Hx|reflexivity].
  apply Prim2SF_inj. unfold key in H.
  change (Prim2SF neg_infinity) with (S754_infinity true) in *.
  destruct (Prim2SF x) as [s|[]| |[] m e]; simpl in H; try lia. reflexivity.
Qed.

End NumberOrder.

(** ** [Math.min] and [Math.max] *)

Section Extrema.

Lemma min_from_spec (xs : list number) : forall lowest,
  is_nan lowest = false -> all_numbers xs ->
  (min_from lowest xs = lowest \/ In (min_from lowest xs) xs)
  /\ (min_from lowest xs <=? lowest)%float = true
  /\ (forall x, In x xs -> (min_from lowest xs <=? x)%float = true).
Proof.
  induction xs as [|x rest IH]; intros lowest Hl Hxs.
  - simpl. split; [now left|]. split; [now apply leb_refl | intros x []].
  - inversion Hxs as [|? ? Hx Hrest]; subst. unfold isNaN in Hx. simpl. rewrite Hx.
    set (l1 := if (same_number x neg_zero && same_number lowest zero)%bool
               then neg_zero else lowest).
    assert (H1 : (l1 = lowest \/ l1 = x) /\ (l1 <=? lowest)%float = true /\ is_nan l1 = false).
    { unfold l1. destruct (same_number x neg_zero) eqn:E1; simpl.
      - destruct (same_number lowest zero) eqn:E2.
        + apply same_number_eq in E1, E2. subst. split; [now right|]. split; reflexivity.
        + split; [now left|]. split; [now apply leb_refl | exact Hl].
      - split; [now left|]. split; [now apply leb_refl | exact Hl]. }
    destruct H1 as (H1 & H1l & H1n).
    set (l2 := if (x <? l1)%float then x else l1).
    assert (H2 : (l2 = l1 \/ l2 = x) /\ (l2 <=? l1)%float = true
                 /\ (l2 <=? x)%float = true /\ is_nan l2 = false).
    { unfold l2. destruct (x <? l1)%float eqn:E.
      - split; [now right|]. split; [now apply ltb_leb|]. split; [now apply leb_refl | exact Hx].
      - split; [now left|]. split; [now apply leb_refl|].
        split; [now apply ltb_false_leb | exact H1n]. }
    destruct H2 as (H2 & H2l & H2x & H2n).
    destruct (IH l2 H2n Hrest) as (Hin & Hle & Hall).
    split; [|split].
    + destruct Hin as [Hin | Hin]; [|now right; right].
      rewrite Hin. destruct H2 as [-> | ->]; [|now right; left].
      destruct H1 as [-> | ->]; [now left | now right; left].
    + apply leb_trans with l2; [exact Hle|]. now apply leb_trans with l1.
    + intros y [<- | Hy]; [now apply leb_trans with l2 | now apply Hall].
Qed.

(** [Math.min] of numbers, none of them NaN, is the least of them. *)
Lemma Math_min_least (xs : list number) :
  xs <> [] -> all_numbers xs -> least (Math_min xs) xs.
Proof.
  intros Hne Hxs. unfold Math_min.
  destruct (min_from_spec xs infinity eq_refl Hxs) as (Hin & _ & Hall).
  split; [|exact Hall].
  destruct Hin as [Hin | Hin]; [|exact Hin].
  destruct xs as [|x rest]; [now elim Hne|].
  inversion Hxs as [|? ? Hx _]; subst.
  assert (Hx' := Hall x (or_introl eq_refl)). rewrite Hin in *.
  left. apply not_below_infinity; [exact Hx|].
  now apply leb_ltb_false.
Qed.

Lemma max_from_spec (xs : list number) : forall highest,
  is_nan highest = false -> all_numbers xs ->
  (max_from highest xs = highest \/ In (max_from highest xs) xs)
  /\ (highest <=? max_from highest xs)%float = true
  /\ (forall x, In x xs -> (x <=? max_from highest xs)%float = true).
Proof.
  induction xs as [|x rest IH]; intros highest Hl Hxs.
  - simpl. split; [now left|]. split; [now apply leb_refl | intros x []].
  - inversion Hxs as [|? ? Hx Hrest]; subst. unfold isNaN in Hx. simpl. rewrite Hx.
    set (h1 := if (same_number x zero && same_number highest neg_zero)%bool
               then zero else highest).
    assert (H1 : (h1 = highest \/ h1 = x) /\ (highest <=? h1)%float = true /\ is_nan h1 = false).
    { unfold h1. destruct (same_number x zero) eqn:E1; simpl.
      - destruct (same_number highest neg_zero) eqn:E2.
        + apply same_number_eq in E1, E2. subst. split; [now right|]. split; reflexivity.
        + split; [now left|]. split; [now apply leb_refl | exact Hl].
      - split; [now left|]. split; [now apply leb_refl | exact Hl]. }
    destruct H1 as (H1 & H1l & H1n).
    set (h2 := if (h1 <? x)%float then x else h1).
    assert (H2 : (h2 = h1 \/ h2 = x) /\ (h1 <=? h2)%float = true
                 /\ (x <=? h2)%float = true /\ is_nan h2 = false).
    { unfold h2. destruct (h1 <? x)%float eqn:E.
      - split; [now right|]. split; [now apply ltb_leb|]. split; [now apply leb_refl | exact Hx].
      - split; [now left|]. split; [now apply leb_refl|].
        split; [now apply ltb_false_leb | exact H1n]. }
    destruct H2 as (H2 & H2l & H2x & H2n).
    destruct (IH h2 H2n Hrest) as (Hin & Hle & Hall).
    split; [|split].
    + destruct Hin as [Hin | Hin]; [|now right; right].
      rewrite Hin. destruct H2 as [-> | ->]; [|now right; left].
      destruct H1 as [-> | ->]; [now left | now right; left].
    + apply leb_trans with h2; [|exact Hle]. now apply leb_trans with h1.
    + intros y [<- | Hy]; [now apply leb_trans with h2 | now apply Hall].
Qed.

(** [Math.max] of numbers, none of them NaN, is the greatest of them. *)
Lemma Math_max_greatest (xs : list number) :
  xs <> [] -> all_numbers xs -> greatest (Math_max xs) xs.
Proof.
  intros Hne Hxs. unfold Math_max.
  destruct (max_from_spec xs neg_infinity eq_refl Hxs) as (Hin & _ & Hall).
  split; [|exact Hall].
  destruct Hin as [Hin | Hin]; [|exact Hin].
  destruct xs as [|x rest]; [now elim Hne|].
  inversion Hxs as [|? ? Hx _]; subst.
  assert (Hx' := Hall x (or_introl eq_refl)). rewrite Hin in *.
  left. apply not_above_neg_infinity; [exact Hx|].
  now apply leb_ltb_false.
Qed.

End Extrema.

(** ** [toFixed(2)] *)

(** [hundredths m e] is the integer nearest to [100 * m * 2^e], the larger
    of two equally near: exactly that product for [e >= 0], and for [e < 0],
    with [d = 2^(-e)], the [n] such that [n - 1/2 <= 100 * m / d < n + 1/2]. *)
Lemma hundredths_nearest (m e : Z) :
  (0 <= e -> hundredths m e = 100 * m * 2 ^ e)
  /\ (e < 0 ->
      2 * 2 ^ (- e) * hundredths m e <= 200 * m + 2 ^ (- e)
      < 2 * 2 ^ (- e) * (hundredths m e + 1)).
Proof.
  unfold hundredths. split; intros He.
  - apply Z.leb_le in He. rewrite He. reflexivity.
  - assert (E : (0 <=? e) = false) by (apply Z.leb_gt; lia). rewrite E.
    assert (Hd : 0 < 2 * 2 ^ (- e)) by (assert (0 < 2 ^ (- e)) by (apply Z.pow_pos_nonneg; lia); lia).
    split.
    + apply Z.mul_div_le. exact Hd.
    + rewrite Z.add_1_r. apply Z.mul_succ_div_gt. exact Hd.
Qed.

(** Below [10^21] the text of [x.toFixed(2)] is the sign of [x] and that
    nearest integer written with two fraction digits. *)
Lemma toFixed2_finite (x : number) (s : bool) (m : positive) (e : Z) :
  Prim2SF x = S754_finite s m e ->
  e < 0 \/ Zpos m * 2 ^ e < 10 ^ 21 ->
  toFixed2 x = (if s then "-" else "") ++ fixed2_text (hundredths (Zpos m) e).
Proof.
  intros Hx Hsmall. unfold toFixed2. rewrite Hx.
  assert (E : (0 <=? e) && (10 ^ 21 <=? Zpos m * 2 ^ e) = false).
  { apply andb_false_iff. destruct Hsmall as [H | H].
    - left. apply Z.leb_gt. exact H.
    - right. apply Z.leb_gt. exact H. }
  rewrite E. reflexivity.
Qed.

(** *** Reading the text back *)

Ltac digit_step :=
  cbn [NilEmpty.string_of_uint Pos.of_uint_acc Pos.of_uint append digits_value];
  match goal with
  | |- context [digit_of ?c] =>
      let v := eval vm_compute in (digit_of c) in change (digit_of c) with v
  end;
  cbv beta iota.

Lemma digits_value_acc (d : Decimal.uint) : forall (p : positive) (rest : string),
  digits_value (NilEmpty.string_of_uint d ++ String "." rest) (Zpos p)
  = (Zpos (Pos.of_uint_acc d p), String "." rest).
Proof.
  induction d as [|d IH|d IH|d IH|d IH|d IH|d IH|d IH|d IH|d IH|d IH]; intros p rest;
    [reflexivity | ..];
    digit_step; (etransitivity; [|apply IH]); f_equal; lia.
Qed.

Lemma digits_value_uint (d : Decimal.uint) (rest : string) :
  digits_value (NilEmpty.string_of_uint d ++ String "." rest) 0
  = (Z.of_N (N.of_uint d), String "." rest).
Proof.
  unfold N.of_uint.
  induction d as [|d IH|d IH|d IH|d IH|d IH|d IH|d IH|d IH|d IH|d IH];
    [reflexivity | digit_step; exact IH | ..];
    digit_step; (etransitivity; [apply digits_value_acc|]); reflexivity.
Qed.

(** The digits of a natural number start with no 0, except for 0 itself. *)
Lemma to_uint_plain (n : N) :
  match N.to_uint n with
  | Decimal.Nil => False
  | Decimal.D0 d => d = Decimal.Nil
  | _ => True
  end.
Proof.
  assert (H := DecimalN.Unsigned.to_of (N.to_uint n)).
  rewrite DecimalN.Unsigned.of_to in H.
  destruct (N.to_uint n) as [|d|d|d|d|d|d|d|d|d|d] eqn:E; try exact I.
  - symmetry in H. now apply unorm_nonnil in H.
  - unfold Decimal.unorm in H. rewrite nzhead_D0 in H.
    destruct (Decimal.nzhead d) as [|u|u|u|u|u|u|u|u|u|u] eqn:F; try discriminate.
    + congruence.
    + now apply nzhead_nonzero in F.
Qed.

Lemma decimal_text_digit (a : Z) :
  0 <= a < 10 ->
  exists c, decimal_text a = String c EmptyString /\ digit_of c = Some a.
Proof.
  intros H.
  assert (C : a = 0 \/ a = 1 \/ a = 2 \/ a = 3 \/ a = 4 \/ a = 5 \/ a = 6 \/ a = 7
              \/ a = 8 \/ a = 9) by lia.
  repeat (destruct C as [-> | C]; [eexists; split; reflexivity|]).
  subst. eexists; split; reflexivity.
Qed.

(** The text [fixed2_text] writes for [n], after the sign, denotes [n]
    hundredths with that sign. *)
Lemma fixed2_value_text (s : bool) (n : Z) :
  0 <= n ->
  fixed2_value ((if s then "-" else "") ++ fixed2_text n) = Some (s, n).
Proof.
  intros Hn. unfold fixed2_text.
  destruct (decimal_text_digit (n / 10 mod 10)) as (a & -> & Ha).
  { apply Z.mod_pos_bound. lia. }
  destruct (decimal_text_digit (n mod 10)) as (b & -> & Hb).
  { apply Z.mod_pos_bound. lia. }
  cbn [append].
  set (rest := String a (String b EmptyString)).
  assert (W : exists c r,
             decimal_text (n / 100) ++ String "." rest = String c r
             /\ Ascii.eqb c "-" = false
             /\ plain_numeral (String c r) = true
             /\ digits_value (String c r) 0 = (n / 100, String "." rest)).
  { unfold decimal_text. assert (P := to_uint_plain (Z.to_N (n / 100))).
    assert (V := digits_value_uint (N.to_uint (Z.to_N (n / 100))) rest).
    rewrite DecimalN.Unsigned.of_to, Z2N.id in V by (apply Z.div_pos; lia).
    destruct (N.to_uint (Z.to_N (n / 100))) as [|d|d|d|d|d|d|d|d|d|d];
      [now elim P | subst d | ..];
      cbn [NilZero.string_of_uint NilEmpty.string_of_uint append] in *;
      eexists; eexists; (split; [reflexivity|]); (split; [reflexivity|]);
      (split; [reflexivity | exact V]). }
  destruct W as (c & r & -> & Hc & Hp & Hv).
  assert (E : fixed2_value (String c r) = Some (false, n)
              /\ fixed2_value (String "-" (String c r)) = Some (true, n)).
  { unfold fixed2_value. rewrite Hc. change (Ascii.eqb "-" "-") with true. cbv iota.
    rewrite Hv. unfold rest. rewrite Ha, Hb, Hp. change (Ascii.eqb "." ".") with true.
    cbn [andb].
    assert (100 * (n / 100) + 10 * (n / 10 mod 10) + n mod 10 = n) as ->.
    { assert (H1 := Z.div_mod n 10 ltac:(lia)).
      assert (H2 := Z.div_mod (n / 10) 10 ltac:(lia)).
      rewrite Z.div_div in H2 by lia. change (10 * 10) with 100 in H2. lia. }
    split; reflexivity. }
  destruct s; [exact (proj2 E) | exact (proj1 E)].
Qed.

(** *** The hundredth nearest to a binary64 value *)

Lemma hundredths_nonneg (m : positive) (e : Z) : 0 <= hundredths (Zpos m) e.
Proof.
  unfold hundredths. destruct (0 <=? e) eqn:E.
  - apply Z.leb_le in E. assert (0 < 2 ^ e) by (apply Z.pow_pos_nonneg; lia). lia.
  - apply Z.leb_gt in E. assert (0 < 2 ^ (- e)) by (apply Z.pow_pos_nonneg; lia).
    apply Z.div_pos; lia.
Qed.

Lemma hundredths_nearest_hundredth (m : positive) (e : Z) :
  nearest_hundredth (inject_Z (Zpos m) * 2 ^ e)%Q (hundredths (Zpos m) e).
Proof.
  destruct (hundredths_nearest (Zpos m) e) as [Hp Hn]. unfold nearest_hundredth.
  destruct (Z_le_gt_dec 0 e) as [He|He].
  - rewrite (Hp He).
    assert (E : (inject_Z (100 * Zpos m * 2 ^ e) == 100 * (inject_Z (Zpos m) * 2 ^ e))%Q).
    { rewrite !inject_Z_mult, (Zpower_Qpower 2 e He).
      change (inject_Z 100) with 100%Q. change (inject_Z 2) with 2%Q. ring. }
    rewrite E. split; lra.
  - assert (Hk : 0 < - e) by lia.
    set (k := - e) in *. set (n := hundredths (Zpos m) e) in *. clearbody n.
    specialize (Hn ltac:(lia)). fold k in Hn.
    assert (Dpos : 0 < 2 ^ k) by (apply Z.pow_pos_nonneg; lia).
    assert (E : (2 ^ e == / inject_Z (2 ^ k))%Q).
    { replace e with (- k) by (unfold k; lia). rewrite Qpower_opp.
      rewrite (Zpower_Qpower 2 k) by lia. reflexivity. }
    rewrite E.
    assert (DQ : (0 < inject_Z (2 ^ k))%Q).
    { change 0%Q with (inject_Z 0). rewrite <- Zlt_Qlt. exact Dpos. }
    destruct Hn as [H1 H2].
    rewrite Zle_Qle in H1. rewrite Zlt_Qlt in H2.
    repeat first [rewrite inject_Z_mult in H1 | rewrite inject_Z_plus in H1].
    repeat first [rewrite inject_Z_mult in H2 | rewrite inject_Z_plus in H2].
    set (D := inject_Z (2 ^ k)) in *. set (M := inject_Z (Zpos m)) in *.
    set (N := inject_Z n) in *.
    change (inject_Z 2) with 2%Q in *. change (inject_Z 200) with 200%Q in *.
    change (inject_Z 1) with 1%Q in *.
    assert (X : (100 * (M * / D) == (100 * M) / D)%Q) by (unfold Qdiv; ring).
    rewrite X. split.
    + apply Qle_shift_div_l; [exact DQ|]. clearbody D M N. clear - H1 DQ. lra.
    + apply Qlt_shift_div_r; [exact DQ|]. clearbody D M N. clear - H2 DQ. lra.
Qed.

(** [toFixed(2)] of a Number below [10^21] in magnitude is that Number
    rounded to two decimal places. *)
Lemma toFixed2_rounded (x : number) : rounded_to_hundredths x (toFixed2 x).
Proof.
  intros v Hv Hsmall. unfold exact in Hv.
  destruct (Prim2SF x) as [sz| | |s m e] eqn:Hx; try discriminate.
  - injection Hv as <-. exists false, 0.
    unfold toFixed2. rewrite Hx.
    split; [reflexivity|]. split.
    + split; [discriminate | intros H; now apply Qlt_irrefl in H].
    + split; vm_compute; [discriminate | reflexivity].
  - injection Hv as <-.
    set (M := (inject_Z (Zpos m) * 2 ^ e)%Q) in *.
    assert (P : (0 < M)%Q).
    { unfold M. apply Qmult_lt_0_compat; [reflexivity|].
      apply Qpower_0_lt. reflexivity. }
    assert (A : (Qabs (inject_Z (if s then Zneg m else Zpos m) * 2 ^ e) == M)%Q).
    { destruct s.
      - change (Zneg m) with (- Zpos m). rewrite inject_Z_opp.
        setoid_replace (- inject_Z (Zpos m) * 2 ^ e)%Q with (- M)%Q by (unfold M; ring).
        rewrite Qabs_opp. apply Qabs_pos. now apply Qlt_le_weak.
      - apply Qabs_pos. now apply Qlt_le_weak. }
    rewrite A in Hsmall.
    assert (S : e < 0 \/ Zpos m * 2 ^ e < 10 ^ 21).
    { destruct (Z_le_gt_dec 0 e) as [He|He]; [right | left; lia].
      rewrite Zlt_Qlt, inject_Z_mult, (Zpower_Qpower 2 e He). exact Hsmall. }
    exists s, (hundredths (Zpos m) e).
    rewrite (toFixed2_finite x s m e Hx S).
    split; [apply fixed2_value_text, hundredths_nonneg|]. split.
    + destruct s.
      * split; [intros _ | reflexivity].
        change (Zneg m) with (- Zpos m). rewrite inject_Z_opp.
        setoid_replace (- inject_Z (Zpos m) * 2 ^ e)%Q with (- M)%Q by (unfold M; ring).
        clearbody M. lra.
      * split; [discriminate|]. intros H. exfalso. fold M in H. clearbody M. lra.
    + unfold nearest_hundredth. rewrite A. apply hundredths_nearest_hundredth.
Qed.

(** ** Integers in binary64 *)

Section Integers.

Lemma digits2_pos_iter (k p : positive) :
  digits2_pos (Pos.iter xO p k) = (digits2_pos p + k)%positive.
Proof.
  induction k as [|k IH] using Pos.peano_ind.
  - simpl. lia.
  - rewrite Pos.iter_succ. cbn [digits2_pos]. rewrite IH. lia.
Qed.

Lemma iter_xO_value (k p : positive) : Zpos (Pos.iter xO p k) = Zpos p * 2 ^ Zpos k.
Proof.
  induction k as [|k IH] using Pos.peano_ind.
  - simpl. lia.
  - rewrite Pos.iter_succ, Pos2Z.inj_xO, IH, Pos2Z.inj_succ, Z.pow_succ_r by lia. lia.
Qed.

Lemma digits2_pos_lower (p : positive) : 2 ^ (Zpos (digits2_pos p) - 1) <= Zpos p.
Proof.
  induction p as [p IH|p IH|]; cbn [digits2_pos].
  - rewrite Pos2Z.inj_succ.
    replace (Z.succ (Zpos (digits2_pos p)) - 1) with (Z.succ (Zpos (digits2_pos p) - 1)) by lia.
    rewrite Z.pow_succ_r by lia. lia.
  - rewrite Pos2Z.inj_succ.
    replace (Z.succ (Zpos (digits2_pos p)) - 1) with (Z.succ (Zpos (digits2_pos p) - 1)) by lia.
    rewrite Z.pow_succ_r by lia. lia.
  - simpl. lia.
Qed.

(** A mantissa of 53 bits is left as it is by the rounding. *)
Lemma binary_round_aux_canonical (s : bool) (m : positive) (e : Z) :
  Zpos (digits2_pos m) = 53 -> -1074 <= e <= 971 ->
  binary_round_aux prec emax s (Zpos m) e loc_Exact = S754_finite s m e.
Proof.
  intros Hd He. unfold binary_round_aux, shr_fexp. cbn [Zdigits2]. rewrite Hd.
  assert (E : fexp prec emax (53 + e) - e = 0).
  { unfold fexp, SpecFloat.emin. change prec with 53. change emax with 1024. lia. }
  rewrite E. cbn [shr shr_record_of_loc shr_m loc_of_shr_record round_nearest_even Zdigits2].
  rewrite Hd, E. cbn [shr shr_m].
  replace (e <=? emax - prec) with true; [reflexivity|].
  symmetry. apply Z.leb_le. change prec with 53. change emax with 1024. lia.
Qed.

(** An integer below [2^53] is rounded to itself: the mantissa is the
    integer shifted to 53 bits, the exponent takes the shift back. *)
Lemma binary_round_exact (s : bool) (p : positive) :
  Zpos p < 2 ^ 53 ->
  exists (m : positive) (k : Z),
    binary_round prec emax s p 0 = S754_finite s m (- k)
    /\ 0 <= k /\ Zpos m = Zpos p * 2 ^ k
    /\ valid_binary (S754_finite s m (- k)) = true.
Proof.
  intros Hp.
  assert (Hd : Zpos (digits2_pos p) <= 53).
  { assert (L := digits2_pos_lower p).
    destruct (Z_le_gt_dec (Zpos (digits2_pos p)) 53) as [H|H]; [exact H|exfalso].
    assert (2 ^ 53 <= 2 ^ (Zpos (digits2_pos p) - 1)) by (apply Z.pow_le_mono_r; lia).
    lia. }
  assert (F : fexp prec emax (Zpos (digits2_pos p) + 0) = Zpos (digits2_pos p) - 53).
  { unfold fexp, SpecFloat.emin. change prec with 53. change emax with 1024. lia. }
  assert (V : forall m e, Zpos (digits2_pos m) = 53 -> -1074 <= e <= 971 ->
                          valid_binary (S754_finite s m e) = true).
  { intros m e Hm He. unfold SpecFloat.valid_binary, bounded, canonical_mantissa.
    rewrite Hm. apply andb_true_iff. split.
    - apply Z.eqb_eq. unfold fexp, SpecFloat.emin. change prec with 53. change emax with 1024. lia.
    - apply Z.leb_le. change prec with 53. change emax with 1024. lia. }
  unfold binary_round. rewrite F. unfold shl_align.
  destruct (Zpos (digits2_pos p) - 53 - 0) as [|q|q] eqn:E; try lia.
  - exists p, 0. rewrite (binary_round_aux_canonical s p 0) by lia.
    repeat split; try lia. apply V; lia.
  - assert (D : Zpos (digits2_pos (Pos.iter xO p q)) = 53).
    { rewrite digits2_pos_iter. lia. }
    exists (Pos.iter xO p q), (Zpos q).
    replace (Zpos (digits2_pos p) - 53) with (- Zpos q) by lia.
    rewrite (binary_round_aux_canonical s _ _ D) by lia.
    repeat split; try lia.
    + apply iter_xO_value.
    + apply V; [exact D | lia].
Qed.

(** The Number for an integer of magnitude below [2^53] is that integer. *)
Lemma number_of_Z_exact (n : Z) :
  - 2 ^ 53 < n < 2 ^ 53 -> integer_of (number_of_Z n) = Some n.
Proof.
  intros Hn. unfold number_of_Z, integer_of, binary_normalize.
  destruct n as [|p|p].
  - reflexivity.
  - destruct (binary_round_exact false p ltac:(lia)) as (m & k & -> & Hk & Hm & Hv).
    rewrite (Prim2SF_SF2Prim _ Hv).
    assert (Dpos : 0 < 2 ^ k) by (apply Z.pow_pos_nonneg; lia).
    destruct (0 <=? - k) eqn:E.
    + apply Z.leb_le in E. replace k with 0 in * by lia. simpl in *. f_equal. lia.
    + rewrite Z.opp_involutive, Hm, Z.mod_mul, Z.div_mul by lia. reflexivity.
  - destruct (binary_round_exact true p ltac:(lia)) as (m & k & -> & Hk & Hm & Hv).
    rewrite (Prim2SF_SF2Prim _ Hv).
    assert (Dpos : 0 < 2 ^ k) by (apply Z.pow_pos_nonneg; lia).
    destruct (0 <=? - k) eqn:E.
    + apply Z.leb_le in E. replace k with 0 in * by lia. simpl in *. f_equal. lia.
    + rewrite Z.opp_involutive, Hm, Z.mod_mul by lia. simpl Z.eqb. cbv iota.
      change (Zneg m) with (- Zpos m). rewrite Hm.
      rewrite <- Z.mul_opp_l, Z.div_mul by lia. reflexivity.
Qed.

End Integers.

(** ** [parseFloat] and text after a literal *)

Section Prefix.

Lemma junk_head (c : ascii) (s : string) :
  junk (String c s) ->
  is_digit c = false /\ Ascii.eqb c "." = false
  /\ Ascii.eqb c "e" = false /\ Ascii.eqb c "E" = false.
Proof.
  simpl. unfold not_numeric. rewrite negb_true_iff, !orb_false_iff. tauto.
Qed.

Lemma read_digits_app (s j : string) : junk j -> forall acc cnt,
  read_digits (s ++ j) acc cnt
  = let '(a, c, rest) := read_digits s acc cnt in (a, c, rest ++ j).
Proof.
  intros Hj. induction s as [|c s IH]; intros acc cnt; simpl.
  - destruct j as [|c j]; [reflexivity|]. simpl.
    destruct (junk_head _ _ Hj) as (-> & _). reflexivity.
  - destruct (is_digit c); [apply IH | reflexivity].
Qed.

Lemma read_sign_app (c : ascii) (s j : string) :
  read_sign (String c s ++ j)
  = let '(neg, rest) := read_sign (String c s) in (neg, rest ++ j).
Proof.
  simpl. destruct (Ascii.eqb c "-"); [reflexivity|].
  destruct (Ascii.eqb c "+"); reflexivity.
Qed.

Lemma read_exponent_app (s j : string) (e : Z) :
  junk j -> read_exponent s = (e, "") -> read_exponent (s ++ j) = (e, j).
Proof.
  intros Hj. destruct s as [|c s]; simpl.
  - intros H. injection H as <-.
    destruct j as [|c j]; [reflexivity|]. simpl.
    destruct (junk_head _ _ Hj) as (_ & _ & -> & ->). reflexivity.
  - destruct (Ascii.eqb c "e" || Ascii.eqb c "E")%bool; [|discriminate].
    destruct s as [|d s].
    + simpl. discriminate.
    + rewrite read_sign_app. destruct (read_sign (String d s)) as [eneg s2].
      rewrite (read_digits_app _ _ Hj).
      destruct (read_digits s2 0 0) as [[ev ecnt] s3].
      destruct (ecnt =? 0); [discriminate|].
      intros H. injection H as <- ->. reflexivity.
Qed.

Lemma strip_prefix_app (p s j rest : string) :
  strip_prefix p s = Some rest -> strip_prefix p (s ++ j) = Some (rest ++ j).
Proof.
  revert s. induction p as [|a p IH]; intros s; simpl.
  - intros H. injection H as <-. reflexivity.
  - destruct s as [|b s]; [discriminate|]. simpl.
    destruct (Ascii.eqb a b); [apply IH | discriminate].
Qed.

(** A literal that takes the whole of [lit] is read the same when junk
    follows it, and the junk is what is left. *)
Lemma decimal_prefix_app (lit j : string) (l : literal) :
  junk j -> decimal_prefix lit = Some (l, "") ->
  decimal_prefix (lit ++ j) = Some (l, j).
Proof.
  intros Hj. destruct lit as [|c lit]; [discriminate|].
  unfold decimal_prefix. rewrite read_sign_app.
  destruct (read_sign (String c lit)) as [neg s1].
  destruct (strip_prefix "Infinity" s1) as [rest|] eqn:Einf.
  - rewrite (strip_prefix_app _ _ j _ Einf). intros H. injection H as <- ->. reflexivity.
  - rewrite (read_digits_app _ _ Hj).
    destruct (read_digits s1 0 0) as [[ip icnt] s2] eqn:Edig.
    assert (Hinf : strip_prefix "Infinity" (s1 ++ j) = None
                   \/ (icnt = 0 /\ forall c s3, s2 = String c s3 -> Ascii.eqb c "." = false)).
    { destruct s1 as [|d s1].
      - simpl in Edig. injection Edig as <- <- <-. right. split; [reflexivity|]. discriminate.
      - simpl in Edig. cbn -[Ascii.eqb]. destruct (Ascii.eqb "I" d) eqn:EI.
        + apply Ascii.eqb_eq in EI. subst d. simpl in Edig.
          injection Edig as <- <- <-. right. split; [reflexivity|].
          intros c0 s3 H. injection H as <- _. reflexivity.
        + left. reflexivity. }
    destruct Hinf as [-> | (-> & Hdot)].
    + destruct s2 as [|d s2]; cbn [append].
      * destruct (icnt =? 0); [discriminate|]. cbn [read_exponent].
        intros H. injection H as <-.
        destruct j as [|cj j]; [reflexivity|].
        destruct (junk_head _ _ Hj) as (_ & Hd & He & HE).
        rewrite Hd. unfold read_exponent. rewrite He, HE. reflexivity.
      * destruct (Ascii.eqb d ".").
        -- rewrite (read_digits_app _ _ Hj).
           destruct (read_digits s2 ip icnt) as [[m cnt] s4].
           destruct (cnt =? 0); [discriminate|].
           destruct (read_exponent s4) as [e s5] eqn:Ee.
           intros H. injection H as <- ->.
           rewrite (read_exponent_app _ _ _ Hj Ee). reflexivity.
        -- destruct (icnt =? 0); [discriminate|].
           destruct (read_exponent (String d s2)) as [e s5] eqn:Ee.
           intros H. injection H as <- ->.
           change (String d (s2 ++ j)) with (String d s2 ++ j).
           rewrite (read_exponent_app _ _ _ Hj Ee). reflexivity.
    + destruct s2 as [|d s2]; simpl; [discriminate|].
      rewrite (Hdot d s2 eq_refl). simpl. discriminate.
Qed.

Lemma decimal_prefix_head (c : ascii) (s : string) (x : literal * string) :
  decimal_prefix (String c s) = Some x -> starts_literal c = true.
Proof.
  unfold decimal_prefix, starts_literal, read_sign.
  destruct (Ascii.eqb c "-") eqn:Eminus; [rewrite !orb_true_r; reflexivity|].
  destruct (Ascii.eqb c "+") eqn:Eplus; [rewrite !orb_true_r; reflexivity|].
  cbn -[Ascii.eqb]. rewrite (Ascii.eqb_sym c "I").
  destruct (Ascii.eqb "I" c); [rewrite !orb_true_r; reflexivity|].
  destruct (is_digit c); [reflexivity|].
  destruct (Ascii.eqb c "."); [reflexivity|].
  discriminate.
Qed.

Lemma white_prefix_literal (c : ascii) (s : string) :
  starts_literal c = true -> white_prefix (String c s) = None.
Proof.
  unfold starts_literal, is_digit. intros H.
  assert (Hn : 43 <= Z.of_nat (nat_of_ascii c) <= 73).
  { rewrite !orb_true_iff in H.
    destruct H as [[[[H | H] | H] | H] | H];
      try (apply Ascii.eqb_eq in H; subst c; simpl; lia).
    apply andb_true_iff in H. destruct H as [H1 H2].
    apply Z.leb_le in H1, H2. lia. }
  unfold white_prefix. set (n := Z.of_nat (nat_of_ascii c)) in *.
  assert (E9 : (9 <=? n) && (n <=? 13) = false)
    by (apply andb_false_iff; right; apply Z.leb_gt; lia).
  assert (E32 : (n =? 32) = false) by (apply Z.eqb_neq; lia).
  assert (E194 : (n =? 194) = false) by (apply Z.eqb_neq; lia).
  assert (E225 : (n =? 225) = false) by (apply Z.eqb_neq; lia).
  assert (E226 : (n =? 226) = false) by (apply Z.eqb_neq; lia).
  assert (E227 : (n =? 227) = false) by (apply Z.eqb_neq; lia).
  assert (E239 : (n =? 239) = false) by (apply Z.eqb_neq; lia).
  rewrite E9, E32, E194, E225, E226, E227, E239.
  destruct s as [|c2 [|c3 s3]]; reflexivity.
Qed.

Lemma trim_start_none (s : string) : white_prefix s = None -> trim_start s = s.
Proof.
  unfold trim_start. destruct s as [|c s]; [reflexivity|].
  intros H. cbn [String.length trim_start_fuel]. rewrite H. reflexivity.
Qed.

(** [parseFloat] of a decimal literal followed by junk is the number the
    literal denotes, as it is of the literal alone. *)
Lemma parseFloat_string_prefix (lit j : string) (l : literal) :
  junk j -> decimal_prefix lit = Some (l, "") ->
  parseFloat_string (lit ++ j) = number_of_literal l
  /\ parseFloat_string lit = number_of_literal l.
Proof.
  intros Hj Hl. destruct lit as [|c lit]; [discriminate|].
  assert (Hc := decimal_prefix_head _ _ _ Hl).
  unfold parseFloat_string. split.
  - change (String c lit ++ j) with (String c (lit ++ j)).
    rewrite (trim_start_none _ (white_prefix_literal c (lit ++ j) Hc)).
    change (String c (lit ++ j)) with (String c lit ++ j).
    rewrite (decimal_prefix_app _ _ _ Hj Hl). reflexivity.
  - rewrite (trim_start_none _ (white_prefix_literal c lit Hc)), Hl. reflexivity.
Qed.

End Prefix.

(** ** The webhook: the guard *)

Lemma strict_neq_true (a b : option string) : a <> b -> strict_neq a b = true.
Proof.
  destruct a as [x|], b as [y|]; simpl; try reflexivity.
  - intros H. destruct (String.eqb_spec x y) as [->|]; [now elim H | reflexivity].
  - intros H. now elim H.
Qed.

Lemma strict_neq_same (a : option string) : strict_neq a a = false.
Proof. destruct a as [x|]; simpl; [now rewrite String.eqb_refl | reflexivity]. Qed.

(** Whatever [process.env.WEBHOOK_SECRET] is, a header that is not strictly
    equal to it ends the request with 401 before the body is looked at. *)
Lemma webhook_guard {Db} {SB : Supabase Db}
    (WEBHOOK_SECRET : option string) (now : string) (req : Request) (db : Db) :
  header "x-webhook-secret" (headers req) <> WEBHOOK_SECRET ->
  webhook_thingspeak WEBHOOK_SECRET now req db = (error_response 401 "Unauthorized", db).
Proof.
  intros H. unfold webhook_thingspeak, try_catch.
  rewrite (strict_neq_true _ _ H). reflexivity.
Qed.

(** With no secret configured ([process.env.WEBHOOK_SECRET] is
    [undefined]) a push without the header passes the guard:
    [undefined !== undefined] is false. *)
Lemma webhook_guard_unconfigured :
  webhook_thingspeak None noon (push None (VNumber 23.5%float) (VNumber 61%float)) empty_db
  = ({| status := 201;
        json := VObject [("success", VBool true);
                         ("data", row_value (reading noon 23.5%float 61%float));
                         ("message", VString "Datos guardados correctamente")] |},
     {| rows := [reading noon 23.5%float 61%float]; offline := false |}).
Proof. reflexivity. Qed.

(** C1. With a secret configured, a push whose [x-webhook-secret] header is
    missing, or is not that secret, is answered 401 [{ error:
    'Unauthorized' }] and leaves the state of the store, whichever store it
    is, as it was: no request is sent to it. The body of the push plays no
    part. *)
Theorem webhook_unauthorized {Db} {SB : Supabase Db}
    (expected : string) (now : string) (req : Request) (db : Db) :
  header "x-webhook-secret" (headers req) = None
  \/ (exists s, header "x-webhook-secret" (headers req) = Some s /\ s <> expected) ->
  webhook_thingspeak (Some expected) now req db
  = ({| status := 401; json := VObject [("error", VString "Unauthorized")] |}, db).
Proof.
  intros H. apply webhook_guard.
  destruct H as [-> | (s & -> & Hs)]; congruence.
Qed.

Lemma webhook_unauthorized_witness :
  webhook_thingspeak (Some "s3cret") noon
    (push (Some "guess") (VNumber 23.5%float) (VNumber 61%float)) empty_db
  = ({| status := 401; json := VObject [("error", VString "Unauthorized")] |}, empty_db)
  /\ webhook_thingspeak (Some "s3cret") noon
       (push None (VString "n/a") VNull) empty_db
     = ({| status := 401; json := VObject [("error", VString "Unauthorized")] |}, empty_db).
Proof.
  split.
  - apply (webhook_unauthorized "s3cret" noon
             (push (Some "guess") (VNumber 23.5%float) (VNumber 61%float)) empty_db).
    right. exists "guess". split; [reflexivity | discriminate].
  - apply (webhook_unauthorized "s3cret" noon (push None (VString "n/a") VNull) empty_db).
    left. reflexivity.
Defined.

(** ** The webhook: validation and insert *)

Lemma get_defined (v : value) (k k' : string) (x : value) :
  get v k = Normal x -> exists x', get v k' = Normal x'.
Proof. destruct v; simpl; try discriminate; intros _; eexists; reflexivity. Qed.

(** Past the guard, with a body that can be destructured, the handler is
    [validated]. *)
Lemma webhook_authorized {Db} {SB : Supabase Db} (secret now : string) (req : Request)
    (db : Db) (temperature humidity created_at : value) :
  header "x-webhook-secret" (headers req) = Some secret ->
  get (body req) "temperature" = Normal temperature ->
  get (body req) "humidity" = Normal humidity ->
  get (body req) "created_at" = Normal created_at ->
  webhook_thingspeak (Some secret) now req db
  = validated now temperature humidity created_at db.
Proof.
  intros Hh Ht Hu Hc.
  unfold webhook_thingspeak, validated, try_catch, bind, lift, ret, await_write.
  rewrite Hh, strict_neq_same, Ht, Hu, Hc.
  destruct (is_undefined temperature || is_undefined humidity)%bool; [reflexivity|].
  destruct (parseFloat temperature) as [temp|]; [|reflexivity].
  destruct (parseFloat humidity) as [hum|]; [|reflexivity].
  destruct (invalid_reading temp hum); [reflexivity|].
  destruct (insert_select _ db) as [[data|e] db']; reflexivity.
Qed.

(** A body that is [undefined] or [null] cannot be destructured: the
    [TypeError] is caught and answered 500. *)
Lemma webhook_no_body {Db} {SB : Supabase Db} (secret now : string) (req : Request) (db : Db) :
  header "x-webhook-secret" (headers req) = Some secret ->
  body req = VUndefined \/ body req = VNull ->
  webhook_thingspeak (Some secret) now req db
  = (error_response 500 "Error interno del servidor", db).
Proof.
  intros Hh Hb. unfold webhook_thingspeak, try_catch, bind, lift.
  rewrite Hh, strict_neq_same. destruct Hb as [-> | ->]; reflexivity.
Qed.

Lemma parseFloat_not_undefined (v : value) (x : number) :
  parseFloat v = Normal x -> isNaN x = false -> is_undefined v = false.
Proof.
  destruct v; try reflexivity.
  intros H. injection H as <-. vm_compute. discriminate.
Qed.

(** A temperature between [-50] and [100] and a humidity between [0] and
    [100] are not NaN and fail the four comparisons of the range test. *)
Lemma in_range_valid (temp hum : number) :
  (-50 <=? temp)%float = true -> (temp <=? 100)%float = true ->
  (0 <=? hum)%float = true -> (hum <=? 100)%float = true ->
  isNaN temp = false /\ isNaN hum = false /\ invalid_reading temp hum = false.
Proof.
  intros H1 H2 H3 H4.
  destruct (leb_not_nan _ _ H1) as [_ Ht].
  destruct (leb_not_nan _ _ H3) as [_ Hu].
  unfold invalid_reading, isNaN. rewrite Ht, Hu.
  rewrite (leb_ltb_false _ _ H1), (leb_ltb_false _ _ H2).
  rewrite (leb_ltb_false _ _ H3), (leb_ltb_false _ _ H4).
  repeat split.
Qed.

(** What is done, past the guard, with two coerced values in range. *)
Lemma validated_in_range {Db} {SB : Supabase Db} (now : string) (db : Db)
    (temperature humidity created_at : value) (temp hum : number) :
  parseFloat temperature = Normal temp ->
  parseFloat humidity = Normal hum ->
  (-50 <=? temp)%float = true -> (temp <=? 100)%float = true ->
  (0 <=? hum)%float = true -> (hum <=? 100)%float = true ->
  validated now temperature humidity created_at db
  = match insert_select
            {| temperature := temp;
               humidity := hum;
               created_at := if truthy created_at then created_at else VString now;
               source := "thingspeak" |} db with
    | (Data data, db') =>
        ({| status := 201;
            json := VObject [("success", VBool true);
                             ("data", first_row data);
                             ("message", VString "Datos guardados correctamente")] |},
         db')
    | (Error _, db') =>
        ({| status := 500; json := VObject [("error", VString "Error al guardar datos")] |},
         db')
    end.
Proof.
  intros Pt Pu H1 H2 H3 H4. unfold validated.
  destruct (in_range_valid _ _ H1 H2 H3 H4) as (Nt & Nu & Hv).
  rewrite (parseFloat_not_undefined _ _ Pt Nt), (parseFloat_not_undefined _ _ Pu Nu).
  simpl. rewrite Pt, Pu, Hv.
  destruct (insert_select _ db) as [[data|e] db']; reflexivity.
Qed.

(** C2, as the code has it. For a push with the right secret whose
    temperature coerces to a number in [-50, 100] and whose humidity
    coerces to a number in [0, 100], the handler sends the store exactly
    one request: the insert of the row that carries the two coerced
    numbers, [created_at || now] and the source ['thingspeak']. It answers
    201 with the first row the store returns when the store reports no
    error, and 500 [{ error: 'Error al guardar datos' }] when it reports
    one; the state of the store is the one that insert leaves. *)
Theorem webhook_valid_push {Db} {SB : Supabase Db}
    (secret now : string) (req : Request) (db : Db)
    (temperature humidity created_at : value) (temp hum : number) :
  header "x-webhook-secret" (headers req) = Some secret ->
  get (body req) "temperature" = Normal temperature ->
  get (body req) "humidity" = Normal humidity ->
  get (body req) "created_at" = Normal created_at ->
  parseFloat temperature = Normal temp ->
  parseFloat humidity = Normal hum ->
  (-50 <=? temp)%float = true -> (temp <=? 100)%float = true ->
  (0 <=? hum)%float = true -> (hum <=? 100)%float = true ->
  webhook_thingspeak (Some secret) now req db
  = match insert_select
            {| temperature := temp;
               humidity := hum;
               created_at := if truthy created_at then created_at else VString now;
               source := "thingspeak" |} db with
    | (Data data, db') =>
        ({| status := 201;
            json := VObject [("success", VBool true);
                             ("data", first_row data);
                             ("message", VString "Datos guardados correctamente")] |},
         db')
    | (Error _, db') =>
        ({| status := 500; json := VObject [("error", VString "Error al guardar datos")] |},
         db')
    end.
Proof.
  intros Hh Ht Hu Hc Pt Pu H1 H2 H3 H4.
  rewrite (webhook_authorized _ _ _ _ _ _ _ Hh Ht Hu Hc).
  exact (validated_in_range now db _ _ _ _ _ Pt Pu H1 H2 H3 H4).
Qed.

(** On the store in memory, when it is reachable, that insert appends the
    row to the table: one reading more, with the coerced values. *)
Lemma webhook_appends_one_row
    (secret now : string) (req : Request) (db : MemDb)
    (temperature humidity created_at : value) (temp hum : number) :
  offline db = false ->
  header "x-webhook-secret" (headers req) = Some secret ->
  get (body req) "temperature" = Normal temperature ->
  get (body req) "humidity" = Normal humidity ->
  get (body req) "created_at" = Normal created_at ->
  parseFloat temperature = Normal temp ->
  parseFloat humidity = Normal hum ->
  (-50 <=? temp)%float = true -> (temp <=? 100)%float = true ->
  (0 <=? hum)%float = true -> (hum <=? 100)%float = true ->
  status (fst (webhook_thingspeak (Some secret) now req db)) = 201
  /\ rows (snd (webhook_thingspeak (Some secret) now req db))
     = (rows db ++ [{| temperature := temp;
                       humidity := hum;
                       created_at := if truthy created_at then created_at else VString now;
                       source := "thingspeak" |}])%list.
Proof.
  intros Hon Hh Ht Hu Hc Pt Pu H1 H2 H3 H4.
  rewrite (webhook_authorized _ _ _ _ _ _ _ Hh Ht Hu Hc).
  rewrite (validated_in_range now db _ _ _ _ _ Pt Pu H1 H2 H3 H4).
  simpl. rewrite Hon. split; reflexivity.
Qed.

(** The scenario of the specification on the store in memory: 201, the
    reading echoed back, and one row more in the table. *)
Lemma webhook_valid_push_witness :
  webhook_thingspeak (Some "s3cret") noon
    (push (Some "s3cret") (VNumber 23.5%float) (VNumber 61%float)) empty_db
  = ({| status := 201;
        json := VObject [("success", VBool true);
                         ("data", VObject [("temperature", VNumber 23.5%float);
                                           ("humidity", VNumber 61%float);
                                           ("created_at", VString noon);
                                           ("source", VString "thingspeak")]);
                         ("message", VString "Datos guardados correctamente")] |},
     {| rows := [{| temperature := 23.5%float;
                    humidity := 61%float;
                    created_at := VString noon;
                    source := "thingspeak" |}];
        offline := false |}).
Proof.
  exact (webhook_valid_push "s3cret" noon
           (push (Some "s3cret") (VNumber 23.5%float) (VNumber 61%float)) empty_db
           (VNumber 23.5%float) (VNumber 61%float) VUndefined 23.5%float 61%float
           eq_refl eq_refl eq_refl eq_refl eq_refl eq_refl
           eq_refl eq_refl eq_refl eq_refl).
Defined.

(** C2, as stated, fails when the store reports an error: the push is
    authorized and both measures are in range, yet the answer is 500 and
    the table has no new row. *)
Lemma webhook_valid_push_store_error :
  let req := push (Some "s3cret") (VNumber 23.5%float) (VNumber 61%float) in
  header "x-webhook-secret" (headers req) = Some "s3cret"
  /\ parseFloat (VNumber 23.5%float) = Normal 23.5%float
  /\ parseFloat (VNumber 61%float) = Normal 61%float
  /\ (-50 <=? 23.5)%float = true /\ (23.5 <=? 100)%float = true
  /\ (0 <=? 61)%float = true /\ (61 <=? 100)%float = true
  /\ webhook_thingspeak (Some "s3cret") noon req offline_db
     = ({| status := 500; json := VObject [("error", VString "Error al guardar datos")] |},
        offline_db)
  /\ status (fst (webhook_thingspeak (Some "s3cret") noon req offline_db)) <> 201
  /\ rows (snd (webhook_thingspeak (Some "s3cret") noon req offline_db)) = [].
Proof. vm_compute. repeat split; discriminate. Qed.

(** C3. An authorized push whose two fields coerce to numbers (neither is
    NaN), one of them outside its range, is answered 400 [{ error:
    'Valores fuera de rango' }] and no request reaches the store. *)
Theorem webhook_out_of_range {Db} {SB : Supabase Db}
    (secret now : string) (req : Request) (db : Db)
    (temperature humidity : value) (temp hum : number) :
  header "x-webhook-secret" (headers req) = Some secret ->
  get (body req) "temperature" = Normal temperature ->
  get (body req) "humidity" = Normal humidity ->
  parseFloat temperature = Normal temp ->
  parseFloat humidity = Normal hum ->
  isNaN temp = false -> isNaN hum = false ->
  (temp <? -50)%float = true \/ (100 <? temp)%float = true
  \/ (hum <? 0)%float = true \/ (100 <? hum)%float = true ->
  webhook_thingspeak (Some secret) now req db
  = ({| status := 400; json := VObject [("error", VString "Valores fuera de rango")] |}, db).
Proof.
  intros Hh Ht Hu Pt Pu Nt Nu Hr.
  destruct (get_defined _ _ "created_at" _ Ht) as [created_at Hc].
  rewrite (webhook_authorized _ _ _ _ _ _ _ Hh Ht Hu Hc). unfold validated.
  rewrite (parseFloat_not_undefined _ _ Pt Nt), (parseFloat_not_undefined _ _ Pu Nu).
  simpl. rewrite Pt, Pu.
  assert (invalid_reading temp hum = true) as ->; [|reflexivity].
  unfold invalid_reading. rewrite Nt, Nu. simpl.
  destruct Hr as [-> | [-> | [-> | ->]]]; rewrite ?orb_true_r; reflexivity.
Qed.

Lemma webhook_out_of_range_witness :
  webhook_thingspeak (Some "s3cret") noon
    (push (Some "s3cret") (VNumber 150%float) (VNumber 50%float)) empty_db
  = ({| status := 400; json := VObject [("error", VString "Valores fuera de rango")] |},
     empty_db).
Proof.
  apply (webhook_out_of_range "s3cret" noon
           (push (Some "s3cret") (VNumber 150%float) (VNumber 50%float)) empty_db
           (VNumber 150%float) (VNumber 50%float) 150%float 50%float);
    try reflexivity.
  right. left. reflexivity.
Defined.

(** C4, as the code has it. Past the guard the checks run in a fixed order
    and the first one that fails answers; there are two of them, not three.
    - Presence: when [temperature] or [humidity] is [undefined] the answer
      is 400 [{ error: 'Faltan campos requeridos' }], whatever the other
      field holds.
    - Otherwise, when the two coercions complete and a coerced value is NaN
      or outside its range, the answer is 400 [{ error: 'Valores fuera de
      rango' }]: not-a-number and out-of-range are one rejection.
    The store is not touched by either. *)
Theorem webhook_validation_order {Db} {SB : Supabase Db}
    (secret now : string) (req : Request) (db : Db) (temperature humidity : value) :
  header "x-webhook-secret" (headers req) = Some secret ->
  get (body req) "temperature" = Normal temperature ->
  get (body req) "humidity" = Normal humidity ->
  (temperature = VUndefined \/ humidity = VUndefined ->
   webhook_thingspeak (Some secret) now req db
   = ({| status := 400; json := VObject [("error", VString "Faltan campos requeridos")] |}, db))
  /\ (temperature <> VUndefined -> humidity <> VUndefined ->
      forall temp hum : number,
        parseFloat temperature = Normal temp ->
        parseFloat humidity = Normal hum ->
        isNaN temp = true \/ isNaN hum = true
        \/ (temp <? -50)%float = true \/ (100 <? temp)%float = true
        \/ (hum <? 0)%float = true \/ (100 <? hum)%float = true ->
        webhook_thingspeak (Some secret) now req db
        = ({| status := 400; json := VObject [("error", VString "Valores fuera de rango")] |}, db)).
Proof.
  intros Hh Ht Hu.
  destruct (get_defined _ _ "created_at" _ Ht) as [created_at Hc].
  rewrite (webhook_authorized _ _ _ _ _ _ _ Hh Ht Hu Hc). unfold validated. split.
  - intros [-> | ->]; simpl; rewrite ?orb_true_r; reflexivity.
  - intros Dt Du temp hum Pt Pu Hr.
    assert (is_undefined temperature = false) as ->
      by (destruct temperature; try reflexivity; elim Dt; reflexivity).
    assert (is_undefined humidity = false) as ->
      by (destruct humidity; try reflexivity; elim Du; reflexivity).
    simpl. rewrite Pt, Pu.
    assert (invalid_reading temp hum = true) as ->; [|reflexivity].
    unfold invalid_reading.
    destruct Hr as [-> | [-> | [-> | [-> | [-> | ->]]]]]; rewrite ?orb_true_r; reflexivity.
Qed.

Lemma webhook_validation_order_witness :
  webhook_thingspeak (Some "s3cret") noon
    (push (Some "s3cret") VUndefined (VString "abc")) empty_db
  = ({| status := 400; json := VObject [("error", VString "Faltan campos requeridos")] |},
     empty_db)
  /\ webhook_thingspeak (Some "s3cret") noon
       (push (Some "s3cret") (VString "abc") (VNumber 50%float)) empty_db
     = ({| status := 400; json := VObject [("error", VString "Valores fuera de rango")] |},
        empty_db).
Proof.
  split.
  - apply (webhook_validation_order "s3cret" noon
             (push (Some "s3cret") VUndefined (VString "abc")) empty_db
             VUndefined (VString "abc") eq_refl eq_refl eq_refl).
    left. reflexivity.
  - apply (webhook_validation_order "s3cret" noon
             (push (Some "s3cret") (VString "abc") (VNumber 50%float)) empty_db
             (VString "abc") (VNumber 50%float) eq_refl eq_refl eq_refl)
      with (temp := nan) (hum := 50%float); try discriminate; try reflexivity.
    left. reflexivity.
Defined.

(** C4, as stated, fails on a field that is present and not numeric: the
    text ["abc"] coerces to NaN, and the answer is the very answer given to
    a temperature of 150, the out-of-range rejection. No part of the
    response tells the two apart. *)
Lemma webhook_nan_reported_out_of_range :
  let not_numeric := push (Some "s3cret") (VString "abc") (VNumber 50%float) in
  let too_hot := push (Some "s3cret") (VNumber 150%float) (VNumber 50%float) in
  parseFloat (VString "abc") = Normal nan
  /\ parseFloat (VNumber 150%float) = Normal 150%float
  /\ (100 <? 150)%float = true
  /\ webhook_thingspeak (Some "s3cret") noon not_numeric empty_db
     = ({| status := 400; json := VObject [("error", VString "Valores fuera de rango")] |},
        empty_db)
  /\ webhook_thingspeak (Some "s3cret") noon not_numeric empty_db
     = webhook_thingspeak (Some "s3cret") noon too_hot empty_db.
Proof. vm_compute. repeat split. Qed.

(** A field whose [ToString] throws, past the presence check, is answered
    500: the [TypeError] of [parseFloat] is caught. *)
Lemma webhook_coercion_throws :
  webhook_thingspeak (Some "s3cret") noon
    (push (Some "s3cret") (VObject [("toString", VNull)]) (VNumber 50%float)) empty_db
  = (error_response 500 "Error interno del servidor", empty_db).
Proof. reflexivity. Qed.

(** ** The webhook: numeric prefixes *)

Lemma parseFloat_prefix (lit j : string) (l : literal) :
  junk j -> decimal_prefix lit = Some (l, "") ->
  parseFloat (VString (lit ++ j)) = Normal (number_of_literal l).
Proof.
  intros Hj Hl. unfold parseFloat. simpl.
  now rewrite (proj1 (parseFloat_string_prefix lit j l Hj Hl)).
Qed.

(** C10, as the code has it. A field that is a decimal literal followed by
    text that cannot continue it coerces to the number the literal denotes,
    not to NaN. When that number and the coerced value of the other field
    are in range, the handler inserts the reading with that number, and
    answers 201 when the store reports no error, 500 when it reports one. *)
Theorem webhook_numeric_prefix {Db} {SB : Supabase Db}
    (secret now : string) (req : Request) (db : Db)
    (lit j : string) (l : literal) (other created_at : value) (x : number) :
  junk j ->
  decimal_prefix lit = Some (l, "") ->
  header "x-webhook-secret" (headers req) = Some secret ->
  get (body req) "created_at" = Normal created_at ->
  parseFloat other = Normal x ->
  parseFloat (VString (lit ++ j)) = Normal (number_of_literal l)
  /\ (get (body req) "temperature" = Normal (VString (lit ++ j)) ->
      get (body req) "humidity" = Normal other ->
      (-50 <=? number_of_literal l)%float = true ->
      (number_of_literal l <=? 100)%float = true ->
      (0 <=? x)%float = true -> (x <=? 100)%float = true ->
      webhook_thingspeak (Some secret) now req db
      = match insert_select
                {| temperature := number_of_literal l;
                   humidity := x;
                   created_at := if truthy created_at then created_at else VString now;
                   source := "thingspeak" |} db with
        | (Data data, db') =>
            ({| status := 201;
                json := VObject [("success", VBool true);
                                 ("data", first_row data);
                                 ("message", VString "Datos guardados correctamente")] |},
             db')
        | (Error _, db') =>
            ({| status := 500; json := VObject [("error", VString "Error al guardar datos")] |},
             db')
        end)
  /\ (get (body req) "temperature" = Normal other ->
      get (body req) "humidity" = Normal (VString (lit ++ j)) ->
      (-50 <=? x)%float = true -> (x <=? 100)%float = true ->
      (0 <=? number_of_literal l)%float = true ->
      (number_of_literal l <=? 100)%float = true ->
      webhook_thingspeak (Some secret) now req db
      = match insert_select
                {| temperature := x;
                   humidity := number_of_literal l;
                   created_at := if truthy created_at then created_at else VString now;
                   source := "thingspeak" |} db with
        | (Data data, db') =>
            ({| status := 201;
                json := VObject [("success", VBool true);
                                 ("data", first_row data);
                                 ("message", VString "Datos guardados correctamente")] |},
             db')
        | (Error _, db') =>
            ({| status := 500; json := VObject [("error", VString "Error al guardar datos")] |},
             db')
        end).
Proof.
  intros Hj Hl Hh Hc Px.
  assert (Pl := parseFloat_prefix lit j l Hj Hl).
  split; [exact Pl|]. split.
  - intros Ht Hu H1 H2 H3 H4.
    rewrite (webhook_authorized _ _ _ _ _ _ _ Hh Ht Hu Hc).
    exact (validated_in_range now db _ _ _ _ _ Pl Px H1 H2 H3 H4).
  - intros Ht Hu H1 H2 H3 H4.
    rewrite (webhook_authorized _ _ _ _ _ _ _ Hh Ht Hu Hc).
    exact (validated_in_range now db _ _ _ _ _ Px Pl H1 H2 H3 H4).
Qed.

(** The example of the claim: ["23.5abc"] is stored as 23.5. *)
Lemma webhook_numeric_prefix_witness :
  parseFloat (VString "23.5abc") = Normal 23.5%float
  /\ webhook_thingspeak (Some "s3cret") noon
       (push (Some "s3cret") (VString "23.5abc") (VNumber 61%float)) empty_db
     = ({| status := 201;
           json := VObject [("success", VBool true);
                            ("data", row_value (reading noon 23.5%float 61%float));
                            ("message", VString "Datos guardados correctamente")] |},
        {| rows := [reading noon 23.5%float 61%float]; offline := false |}).
Proof.
  pose proof (@webhook_numeric_prefix MemDb mem_supabase "s3cret" noon
                (push (Some "s3cret") (VString "23.5abc") (VNumber 61%float)) empty_db
                "23.5" "abc" (LitDecimal false 235 (-1)) (VNumber 61%float) VUndefined
                61%float eq_refl eq_refl eq_refl eq_refl eq_refl) as (H1 & H2 & _).
  split.
  - exact H1.
  - exact (H2 eq_refl eq_refl eq_refl eq_refl eq_refl eq_refl).
Defined.

(** C10, as stated, fails when the number read is out of range: ["150abc"]
    is a decimal literal followed by letters, it coerces to 150, and the
    push is rejected, with nothing stored. *)
Lemma webhook_numeric_prefix_rejected :
  junk "abc"
  /\ decimal_prefix "150" = Some (LitDecimal false 150 0, "")
  /\ parseFloat (VString "150abc") = Normal 150%float
  /\ webhook_thingspeak (Some "s3cret") noon
       (push (Some "s3cret") (VString "150abc") (VNumber 50%float)) empty_db
     = ({| status := 400; json := VObject [("error", VString "Valores fuera de rango")] |},
        empty_db).
Proof. vm_compute. repeat split. Qed.

(** ** The queries *)

Lemma mem_honours_limit : honours_limit mem_supabase.
Proof.
  intros k db data Hk. simpl.
  destruct (offline db); [discriminate|].
  destruct (k <? 0) eqn:E; [discriminate|].
  intros H. injection H as <-.
  rewrite length_map, length_firstn. lia.
Qed.

(** C5, on the code. When the store holds no reading, the ordered query
    limited to one row returns no row, [.single()] turns that into an
    error, the handler throws it and the answer is 500 [{ error: 'Error al
    obtener datos' }], not [{ success, data: null }]. *)
Theorem latest_of_empty_store {Db} {SB : Supabase Db} (req : Request) (db : Db) :
  select_recent 1 db = Data [] ->
  get_latest req db
  = ({| status := 500; json := VObject [("error", VString "Error al obtener datos")] |}, db).
Proof.
  intros H. unfold get_latest, try_catch, bind, await_read. rewrite H. reflexivity.
Qed.

Lemma latest_of_empty_store_witness :
  get_latest (query_request []) empty_db
  = ({| status := 500; json := VObject [("error", VString "Error al obtener datos")] |},
     empty_db).
Proof. exact (latest_of_empty_store (query_request []) empty_db eq_refl). Defined.

(** With exactly one row returned, the same handler answers with it. *)
Lemma latest_of_one_row {Db} {SB : Supabase Db} (req : Request) (db : Db) (row : value) :
  select_recent 1 db = Data [row] ->
  get_latest req db
  = ({| status := 200; json := VObject [("success", VBool true); ("data", row)] |}, db).
Proof.
  intros H. unfold get_latest, try_catch, bind, await_read. rewrite H. reflexivity.
Qed.

(** C9. Whatever sequence the newest-first query returns, the response is
    [{ success: true, count, data }] with [count] its length and [data] its
    reversal; for the empty sequence that is [{ success: true, count: 0,
    data: [] }]. The store is left as it was. *)
Theorem readings_oldest_first {Db} {SB : Supabase Db}
    (req : Request) (db : Db) (data : list value) :
  select_recent (Z.min (requested_limit req) maxLimit) db = Data data ->
  get_readings req db
  = ({| status := 200;
        json := VObject [("success", VBool true);
                         ("count", VNumber (number_of_Z (Z.of_nat (List.length data))));
                         ("data", VArray (rev data))] |}, db)
  /\ (data = [] ->
      get_readings req db
      = ({| status := 200;
            json := VObject [("success", VBool true);
                             ("count", VNumber 0%float);
                             ("data", VArray [])] |}, db)).
Proof.
  intros H. unfold get_readings, try_catch, bind, await_read. rewrite H.
  split; [reflexivity|]. intros ->. reflexivity.
Qed.

Lemma readings_oldest_first_witness :
  get_readings (query_request []) three_readings
  = ({| status := 200;
        json := VObject [("success", VBool true);
                         ("count", VNumber 3%float);
                         ("data", VArray (map row_value (rows three_readings)))] |},
     three_readings)
  /\ get_readings (query_request []) empty_db
     = ({| status := 200;
           json := VObject [("success", VBool true);
                            ("count", VNumber 0%float);
                            ("data", VArray [])] |}, empty_db).
Proof.
  split.
  - exact (proj1 (readings_oldest_first (query_request []) three_readings
                    (map row_value (rev (rows three_readings))) eq_refl)).
  - exact (proj2 (readings_oldest_first (query_request []) empty_db [] eq_refl) eq_refl).
Defined.

Lemma readings_in_get_readings {Db} {SB : Supabase Db} (req : Request) (db : Db) :
  readings_in (fst (get_readings req db))
  = match select_recent (Z.min (requested_limit req) maxLimit) db with
    | Data data => rev data
    | Error _ => []
    end.
Proof.
  unfold get_readings, try_catch, bind, await_read.
  destruct (select_recent _ db) as [data|e]; reflexivity.
Qed.

(** C8, as the code has it. Over a store that honours [.limit], a request
    whose [limit] reads as an integer [n >= 1] is answered with at most
    [min(n, 1000)] readings, so never more than [n] and never more than
    1000; a request with no [limit], or with one that reads as NaN, is
    answered as if it had asked for 100. *)
Theorem readings_limit {Db} {SB : Supabase Db} (req : Request) (db : Db) :
  honours_limit SB ->
  (forall n : Z,
      parseInt (param "limit" (query req)) = Some n -> 1 <= n ->
      Z.of_nat (List.length (readings_in (fst (get_readings req db)))) <= Z.min n 1000
      /\ Z.of_nat (List.length (readings_in (fst (get_readings req db)))) <= n
      /\ Z.of_nat (List.length (readings_in (fst (get_readings req db)))) <= 1000)
  /\ (param "limit" (query req) = None \/ parseInt (param "limit" (query req)) = None ->
      requested_limit req = 100
      /\ Z.of_nat (List.length (readings_in (fst (get_readings req db)))) <= 100).
Proof.
  intros Hlimit.
  assert (bound : 0 <= requested_limit req ->
                  Z.of_nat (List.length (readings_in (fst (get_readings req db))))
                  <= Z.min (requested_limit req) 1000).
  { intros Hpos. rewrite readings_in_get_readings.
    destruct (select_recent _ db) as [data|e] eqn:E.
    - rewrite length_rev. apply (Hlimit _ db data); [unfold maxLimit; lia | exact E].
    - simpl. lia. }
  split.
  - intros n Hn Hpos.
    assert (requested_limit req = n) as Hr.
    { unfold requested_limit. rewrite Hn. destruct n; try reflexivity; lia. }
    rewrite Hr in bound. specialize (bound ltac:(lia)). lia.
  - intros H.
    assert (requested_limit req = 100) as Hr.
    { unfold requested_limit. destruct H as [-> | ->]; reflexivity. }
    split; [exact Hr|]. rewrite Hr in bound. specialize (bound ltac:(lia)). lia.
Qed.

Lemma readings_limit_witness :
  Z.of_nat (List.length (readings_in
     (fst (get_readings (query_request [("limit", QString "2")]) three_readings))))
  <= Z.min 2 1000
  /\ requested_limit (query_request []) = 100.
Proof.
  split.
  - apply (proj1 (readings_limit (query_request [("limit", QString "2")]) three_readings
                    mem_honours_limit) 2); [reflexivity | lia].
  - apply (proj2 (readings_limit (query_request []) three_readings mem_honours_limit)).
    left. reflexivity.
Defined.

(** C8, as stated, fails for [limit=0]: [parseInt] reads 0, which is falsy,
    so the default 100 is asked for and the three stored readings come
    back, more than the 0 requested. *)
Lemma readings_limit_zero :
  let req := query_request [("limit", QString "0")] in
  parseInt (param "limit" (query req)) = Some 0
  /\ List.length (readings_in (fst (get_readings req three_readings))) = 3%nat
  /\ ~ (Z.of_nat (List.length (readings_in (fst (get_readings req three_readings))))
        <= Z.min 0 1000).
Proof. vm_compute. repeat split. intros H. apply H. reflexivity. Qed.

(** ** Today's statistics *)

Lemma column_length (k : string) (data : list value) (xs : list number) :
  column k data = Normal xs -> List.length xs = List.length data.
Proof.
  revert xs. induction data as [|r rest IH]; intros xs; simpl.
  - intros H. injection H as <-. reflexivity.
  - destruct (get r k) as [v|]; [|discriminate].
    destruct (parseFloat v) as [x|]; [|discriminate].
    destruct (column k rest) as [ys|]; [|discriminate].
    intros H. injection H as <-. simpl. f_equal. now apply IH.
Qed.

Lemma today_stats_nonempty (data : list value) (temps hums : list number) :
  data <> [] ->
  column "temperature" data = Normal temps ->
  column "humidity" data = Normal hums ->
  today_stats data
  = Normal (VObject [("count", VNumber (number_of_Z (Z.of_nat (List.length data))));
                     ("temperature",
                      VObject [("min", VNumber (Math_min temps));
                               ("max", VNumber (Math_max temps));
                               ("avg", VString (toFixed2 (sum temps
                                          / number_of_Z (Z.of_nat (List.length temps)))%float))]);
                     ("humidity",
                      VObject [("min", VNumber (Math_min hums));
                               ("max", VNumber (Math_max hums));
                               ("avg", VString (toFixed2 (sum hums
                                          / number_of_Z (Z.of_nat (List.length hums)))%float))])],
            [Z.of_nat (List.length temps); Z.of_nat (List.length hums)]).
Proof.
  intros Hd Ht Hu. unfold today_stats.
  destruct (Z.of_nat (List.length data) =? 0) eqn:E.
  - apply Z.eqb_eq in E. destruct data; [now elim Hd | simpl in E; lia].
  - rewrite Ht, Hu. reflexivity.
Qed.

(** Every division [today_stats] performs is by a length that is not 0. *)
Lemma today_stats_divisors (data : list value) (stats : value) (divisors : list Z) :
  today_stats data = Normal (stats, divisors) -> Forall (fun d => d <> 0) divisors.
Proof.
  destruct data as [|r rest].
  - unfold today_stats. simpl. intros H. injection H as _ <-. constructor.
  - destruct (column "temperature" (r :: rest)) as [temps|e] eqn:Ht.
    + destruct (column "humidity" (r :: rest)) as [hums|e] eqn:Hu.
      * rewrite (today_stats_nonempty (r :: rest) _ _ ltac:(discriminate) Ht Hu).
        intros H. injection H as _ <-.
        rewrite (column_length _ _ _ Ht), (column_length _ _ _ Hu).
        repeat constructor; simpl; lia.
      * unfold today_stats. simpl Z.eqb. cbv iota. rewrite Ht, Hu. discriminate.
    + unfold today_stats. simpl Z.eqb. cbv iota. rewrite Ht. discriminate.
Qed.

(** C6. For a window without readings the response is [{ success: true,
    data: { count: 0, temperature: { min: null, max: null, avg: null },
    humidity: { min: null, max: null, avg: null } } }] and no division is
    performed; for any window, every division performed is by a length
    other than 0. *)
Theorem stats_of_empty_window {Db} {SB : Supabase Db}
    (today : string) (req : Request) (db : Db) :
  select_since today db = Data [] ->
  get_stats_today today req db
  = ({| status := 200;
        json := VObject
                  [("success", VBool true);
                   ("data",
                    VObject [("count", VNumber 0%float);
                             ("temperature",
                              VObject [("min", VNull); ("max", VNull); ("avg", VNull)]);
                             ("humidity",
                              VObject [("min", VNull); ("max", VNull); ("avg", VNull)])])] |},
     db)
  /\ today_stats [] = Normal (no_stats, [])
  /\ (forall data stats divisors,
         today_stats data = Normal (stats, divisors) -> Forall (fun d => d <> 0) divisors).
Proof.
  intros H. split; [|split].
  - unfold get_stats_today, try_catch, bind, await_read. rewrite H. reflexivity.
  - reflexivity.
  - exact today_stats_divisors.
Qed.

Lemma stats_of_empty_window_witness :
  get_stats_today midnight (query_request []) empty_db
  = ({| status := 200;
        json := VObject
                  [("success", VBool true);
                   ("data",
                    VObject [("count", VNumber 0%float);
                             ("temperature",
                              VObject [("min", VNull); ("max", VNull); ("avg", VNull)]);
                             ("humidity",
                              VObject [("min", VNull); ("max", VNull); ("avg", VNull)])])] |},
     empty_db).
Proof.
  exact (proj1 (stats_of_empty_window midnight (query_request []) empty_db eq_refl)).
Defined.

(** C7. For a window that is not empty the response carries [count], the
    number of rows; [min] and [max], which are [Math.min] and [Math.max] of
    the coerced values themselves and, when none of them is NaN, their
    least and their greatest; and [avg], a text: the binary64 mean rounded
    to two decimal places, where the binary64 mean is the values added
    from left to right, starting from 0, and the sum divided by the
    count, each addition and the division rounded to binary64. For the
    window [{20, 25, 30}] that is [min: 20], [max: 30], [avg: "25.00"]. *)
Theorem stats_of_window {Db} {SB : Supabase Db}
    (today : string) (req : Request) (db : Db)
    (data : list value) (temps hums : list number) :
  select_since today db = Data data ->
  data <> [] ->
  Z.of_nat (List.length data) < 2 ^ 53 ->
  column "temperature" data = Normal temps ->
  column "humidity" data = Normal hums ->
  let count := number_of_Z (Z.of_nat (List.length data)) in
  get_stats_today today req db
  = ({| status := 200;
        json := VObject
                  [("success", VBool true);
                   ("data",
                    VObject
                      [("count", VNumber count);
                       ("temperature",
                        VObject [("min", VNumber (Math_min temps));
                                 ("max", VNumber (Math_max temps));
                                 ("avg", VString (toFixed2 (sum temps / count)%float))]);
                       ("humidity",
                        VObject [("min", VNumber (Math_min hums));
                                 ("max", VNumber (Math_max hums));
                                 ("avg", VString (toFixed2 (sum hums / count)%float))])])] |},
     db)
  /\ integer_of count = Some (Z.of_nat (List.length data))
  /\ (all_numbers temps -> least (Math_min temps) temps /\ greatest (Math_max temps) temps)
  /\ (all_numbers hums -> least (Math_min hums) hums /\ greatest (Math_max hums) hums)
  /\ rounded_to_hundredths
       (fold_left PrimFloat.add temps 0%float / count)%float
       (toFixed2 (sum temps / count)%float)
  /\ rounded_to_hundredths
       (fold_left PrimFloat.add hums 0%float / count)%float
       (toFixed2 (sum hums / count)%float)
  /\ fst (extrema [20; 25; 30]%float)
     = VObject [("min", VNumber 20%float); ("max", VNumber 30%float); ("avg", VString "25.00")].
Proof.
  intros Hs Hd Hn Ht Hu count.
  assert (Nt : temps <> []).
  { intros ->. apply column_length in Ht. destruct data; [now elim Hd | discriminate]. }
  assert (Nu : hums <> []).
  { intros ->. apply column_length in Hu. destruct data; [now elim Hd | discriminate]. }
  split; [|split; [|split; [|split; [|split; [|split]]]]].
  - unfold get_stats_today, try_catch, bind, await_read, lift, ret. rewrite Hs.
    rewrite (today_stats_nonempty _ _ _ Hd Ht Hu).
    rewrite (column_length _ _ _ Ht), (column_length _ _ _ Hu). reflexivity.
  - apply number_of_Z_exact. lia.
  - intros H. split; [now apply Math_min_least | now apply Math_max_greatest].
  - intros H. split; [now apply Math_min_least | now apply Math_max_greatest].
  - apply toFixed2_rounded.
  - apply toFixed2_rounded.
  - reflexivity.
Qed.

Lemma stats_of_window_witness :
  get_stats_today midnight (query_request []) three_readings
  = ({| status := 200;
        json := VObject
                  [("success", VBool true);
                   ("data",
                    VObject
                      [("count", VNumber 3%float);
                       ("temperature",
                        VObject [("min", VNumber 20%float);
                                 ("max", VNumber 30%float);
                                 ("avg", VString "25.00")]);
                       ("humidity",
                        VObject [("min", VNumber 40%float);
                                 ("max", VNumber 60%float);
                                 ("avg", VString "50.00")])])] |},
     three_readings).
Proof.
  exact (proj1 (stats_of_window midnight (query_request []) three_readings
                  (map measures (rows three_readings))
                  [20; 25; 30]%float [40; 50; 60]%float
                  eq_refl ltac:(discriminate) eq_refl eq_refl eq_refl)).
Defined.

(** C7, as stated, fails for the window [{47.5, 83.2, 29.3, 62.7}]: these
    are the Numbers that the four texts are read as, their arithmetic mean
    rounded to two decimal places is 55.68, and [avg] is ["55.67"]. The sum
    in binary64 is the Number nearest to 222.7, which is below it, and so
    is its quarter, below 55.675. *)
Lemma stats_avg_not_mean_rounded :
  map parseFloat_string ["47.5"; "83.2"; "29.3"; "62.7"]
  = map temperature (rows four_readings)
  /\ get_stats_today midnight (query_request []) four_readings
     = ({| status := 200;
           json := VObject
                     [("success", VBool true);
                      ("data",
                       VObject
                         [("count", VNumber 4%float);
                          ("temperature",
                           VObject [("min", VNumber (parseFloat_string "29.3"));
                                    ("max", VNumber (parseFloat_string "83.2"));
                                    ("avg", VString "55.67")]);
                          ("humidity",
                           VObject [("min", VNumber 40%float);
                                    ("max", VNumber 70%float);
                                    ("avg", VString "55.00")])])] |},
        four_readings)
  /\ ~ mean_rounded (map temperature (rows four_readings)) "55.67"
  /\ mean_rounded (map temperature (rows four_readings)) "55.68".
Proof.
  split; [reflexivity|]. split; [reflexivity|]. split.
  - intros (vs & s & n & Hvs & Hr & Hn).
    vm_compute in Hr. injection Hr as <- <-.
    vm_compute in Hvs. injection Hvs as <-.
    vm_compute in Hn. apply Hn. reflexivity.
  - eexists _, false, 5568.
    split; [vm_compute; reflexivity|]. split; [reflexivity|].
    vm_compute. discriminate.
Qed.

(** * More of the code *)

(** ** The webhook: what reaches the store *)

Lemma invalid_reading_false (temp hum : number) :
  invalid_reading temp hum = false ->
  (-50 <=? temp)%float = true /\ (temp <=? 100)%float = true
  /\ (0 <=? hum)%float = true /\ (hum <=? 100)%float = true.
Proof.
  unfold invalid_reading, isNaN. rewrite !orb_false_iff.
  intros (((((Nt & Nu) & H1) & H2) & H3) & H4).
  repeat split; apply ltb_false_leb; try assumption; reflexivity.
Qed.

(** X1. Whatever the request and whatever is configured, the webhook either
    leaves the store as it is and answers 400, 401 or 500, or sends it one
    insert, of a row that satisfies the invariants of a reading: the
    temperature within [-50, 100], the humidity within [0, 100], the source
    ['thingspeak'] and a timestamp that is not falsy. *)
Theorem webhook_inserts_valid_readings {Db} {SB : Supabase Db}
    (WEBHOOK_SECRET : option string) (now : string) (req : Request) (db : Db) :
  now <> "" ->
  (exists resp,
      webhook_thingspeak WEBHOOK_SECRET now req db = (resp, db)
      /\ (status resp = 400 \/ status resp = 401 \/ status resp = 500))
  \/ (exists row,
         valid_reading row
         /\ webhook_thingspeak WEBHOOK_SECRET now req db = after_insert row db).
Proof.
  intros Hnow.
  unfold webhook_thingspeak, try_catch, bind, lift, ret, await_write, after_insert.
  destruct (strict_neq _ _).
  { left. eexists. split; [reflexivity|]. right. left. reflexivity. }
  destruct (get (body req) "temperature") as [temperature|].
  2:{ left. eexists. split; [reflexivity|]. right. right. reflexivity. }
  destruct (get (body req) "humidity") as [humidity|].
  2:{ left. eexists. split; [reflexivity|]. right. right. reflexivity. }
  destruct (get (body req) "created_at") as [created_at|].
  2:{ left. eexists. split; [reflexivity|]. right. right. reflexivity. }
  destruct (is_undefined temperature || is_undefined humidity)%bool.
  { left. eexists. split; [reflexivity|]. left. reflexivity. }
  destruct (parseFloat temperature) as [temp|].
  2:{ left. eexists. split; [reflexivity|]. right. right. reflexivity. }
  destruct (parseFloat humidity) as [hum|].
  2:{ left. eexists. split; [reflexivity|]. right. right. reflexivity. }
  destruct (invalid_reading temp hum) eqn:Hv.
  { left. eexists. split; [reflexivity|]. left. reflexivity. }
  right.
  exists {| temperature := temp; humidity := hum;
            created_at := if truthy created_at then created_at else VString now;
            source := "thingspeak" |}.
  split.
  - destruct (invalid_reading_false _ _ Hv) as (H1 & H2 & H3 & H4).
    unfold valid_reading. simpl. repeat split; try assumption.
    destruct (truthy created_at) eqn:Ht; [exact Ht|]. simpl.
    destruct (String.eqb_spec now ""); [now elim Hnow | reflexivity].
  - destruct (insert_select _ db) as [[data|e] db']; reflexivity.
Qed.

Lemma webhook_inserts_valid_readings_witness :
  (exists resp,
      webhook_thingspeak (Some "s3cret") noon
        (push (Some "s3cret") (VString "abc") VNull) three_readings = (resp, three_readings)
      /\ (status resp = 400 \/ status resp = 401 \/ status resp = 500))
  \/ (exists row,
         valid_reading row
         /\ webhook_thingspeak (Some "s3cret") noon
              (push (Some "s3cret") (VString "abc") VNull) three_readings
            = after_insert row three_readings).
Proof.
  apply (webhook_inserts_valid_readings (Some "s3cret") noon
           (push (Some "s3cret") (VString "abc") VNull) three_readings).
  discriminate.
Defined.

Lemma is_zero_cases (x : number) : is_zero x = true -> x = zero \/ x = neg_zero.
Proof.
  unfold is_zero. rewrite eqb_spec. intros H.
  rewrite <- (SF2Prim_Prim2SF x).
  change (Prim2SF zero) with (S754_zero false) in H.
  destruct (Prim2SF x) as [[]|[]| |[] m e]; try discriminate H.
  - right. reflexivity.
  - left. reflexivity.
Qed.

(** [parseFloat] gives a Number back as it is, but for [-0]. *)
Lemma parseFloat_number (x : number) :
  parseFloat (VNumber x) = Normal (if same_number x neg_zero then zero else x).
Proof.
  unfold parseFloat. simpl. f_equal.
  destruct (is_zero x) eqn:Ez.
  - destruct (is_zero_cases x Ez) as [-> | ->]; reflexivity.
  - destruct (same_number x neg_zero) eqn:Es; [|reflexivity].
    apply same_number_eq in Es. subst x. discriminate Ez.
Qed.

(** X2. A temperature and a humidity sent as JSON numbers, in range, are
    stored bit for bit as they were sent; the one exception is [-0], which
    is stored as [0]. *)
Theorem webhook_stores_numbers_unchanged {Db} {SB : Supabase Db}
    (secret now : string) (req : Request) (db : Db)
    (t h : number) (created_at : value) :
  header "x-webhook-secret" (headers req) = Some secret ->
  get (body req) "temperature" = Normal (VNumber t) ->
  get (body req) "humidity" = Normal (VNumber h) ->
  get (body req) "created_at" = Normal created_at ->
  (-50 <=? t)%float = true -> (t <=? 100)%float = true ->
  (0 <=? h)%float = true -> (h <=? 100)%float = true ->
  webhook_thingspeak (Some secret) now req db
  = after_insert
      {| temperature := if same_number t neg_zero then zero else t;
         humidity := if same_number h neg_zero then zero else h;
         created_at := if truthy created_at then created_at else VString now;
         source := "thingspeak" |} db.
Proof.
  intros Hh Ht Hu Hc H1 H2 H3 H4.
  rewrite (webhook_authorized _ _ _ _ _ _ _ Hh Ht Hu Hc).
  unfold after_insert.
  apply validated_in_range; try apply parseFloat_number.
  - destruct (same_number t neg_zero); [reflexivity | exact H1].
  - destruct (same_number t neg_zero); [reflexivity | exact H2].
  - destruct (same_number h neg_zero); [reflexivity | exact H3].
  - destruct (same_number h neg_zero); [reflexivity | exact H4].
Qed.

Lemma webhook_stores_numbers_unchanged_witness :
  webhook_thingspeak (Some "s3cret") noon
    (push (Some "s3cret") (VNumber (-0)%float) (VNumber 61.25%float)) empty_db
  = after_insert
      {| temperature := 0%float; humidity := 61.25%float;
         created_at := VString noon; source := "thingspeak" |} empty_db.
Proof.
  exact (webhook_stores_numbers_unchanged "s3cret" noon
           (push (Some "s3cret") (VNumber (-0)%float) (VNumber 61.25%float)) empty_db
           (-0)%float 61.25%float VUndefined
           eq_refl eq_refl eq_refl eq_refl eq_refl eq_refl eq_refl eq_refl).
Defined.

(** X3. Past the guard, a body that is [undefined] or [null], or two
    fields that are present of which one cannot be turned into text, ends
    in the [catch]: 500 [{ error: 'Error interno del servidor' }], and the
    store is left as it is. The second holds even when the other field is
    out of range or not a number: both coercions run before the range
    test. *)
Theorem webhook_internal_error {Db} {SB : Supabase Db}
    (secret now : string) (req : Request) (db : Db) :
  header "x-webhook-secret" (headers req) = Some secret ->
  body req = VUndefined \/ body req = VNull
  \/ (exists temperature humidity,
         get (body req) "temperature" = Normal temperature
         /\ get (body req) "humidity" = Normal humidity
         /\ temperature <> VUndefined /\ humidity <> VUndefined
         /\ (toString_throws temperature = true \/ toString_throws humidity = true)) ->
  webhook_thingspeak (Some secret) now req db
  = ({| status := 500; json := VObject [("error", VString "Error interno del servidor")] |},
     db).
Proof.
  intros Hh [Hb | [Hb | (temperature & humidity & Ht & Hu & Dt & Du & Hthrow)]].
  - apply webhook_no_body; [exact Hh | now left].
  - apply webhook_no_body; [exact Hh | now right].
  - destruct (get_defined _ _ "created_at" _ Ht) as [created_at Hc].
    rewrite (webhook_authorized _ _ _ _ _ _ _ Hh Ht Hu Hc). unfold validated.
    assert (is_undefined temperature = false) as ->
      by (destruct temperature; try reflexivity; elim Dt; reflexivity).
    assert (is_undefined humidity = false) as ->
      by (destruct humidity; try reflexivity; elim Du; reflexivity).
    simpl. unfold parseFloat.
    destruct Hthrow as [-> | ->]; [reflexivity|].
    destruct (toString_throws temperature); reflexivity.
Qed.

Lemma webhook_internal_error_witness :
  webhook_thingspeak (Some "s3cret") noon
    (push (Some "s3cret") (VString "abc") (VArray [VObject [("toString", VNull)]]))
    three_readings
  = ({| status := 500; json := VObject [("error", VString "Error interno del servidor")] |},
     three_readings).
Proof.
  apply (webhook_internal_error "s3cret" noon
           (push (Some "s3cret") (VString "abc") (VArray [VObject [("toString", VNull)]]))
           three_readings eq_refl).
  right. right. exists (VString "abc"), (VArray [VObject [("toString", VNull)]]).
  repeat split; try discriminate. right. reflexivity.
Defined.

(** ** The queries: errors, bounds, frames *)

(** X4. When the store answers a query with an error, whatever the error
    says, the three query handlers answer 500 with their fixed message and
    nothing of the error, and leave the store as it is. *)
Theorem query_store_error {Db} {SB : Supabase Db}
    (today : string) (req : Request) (db : Db) (e : value) :
  (select_recent (Z.min (requested_limit req) maxLimit) db = Error e ->
   get_readings req db
   = ({| status := 500; json := VObject [("error", VString "Error al obtener datos")] |}, db))
  /\ (select_recent 1 db = Error e ->
      get_latest req db
      = ({| status := 500; json := VObject [("error", VString "Error al obtener datos")] |}, db))
  /\ (select_since today db = Error e ->
      get_stats_today today req db
      = ({| status := 500;
            json := VObject [("error", VString "Error al obtener estadísticas")] |}, db)).
Proof.
  split; [|split]; intros H.
  - unfold get_readings, try_catch, bind, await_read, throw. rewrite H. reflexivity.
  - unfold get_latest, try_catch, bind, await_read, throw. rewrite H. reflexivity.
  - unfold get_stats_today, try_catch, bind, await_read, throw. rewrite H. reflexivity.
Qed.

Lemma query_store_error_witness :
  get_readings (query_request []) offline_db
  = ({| status := 500; json := VObject [("error", VString "Error al obtener datos")] |},
     offline_db)
  /\ get_latest (query_request []) offline_db
     = ({| status := 500; json := VObject [("error", VString "Error al obtener datos")] |},
        offline_db)
  /\ get_stats_today midnight (query_request []) offline_db
     = ({| status := 500;
           json := VObject [("error", VString "Error al obtener estadísticas")] |},
        offline_db).
Proof.
  pose proof (query_store_error midnight (query_request []) offline_db unavailable)
    as (H1 & H2 & H3).
  split; [exact (H1 eq_refl) | split; [exact (H2 eq_refl) | exact (H3 eq_refl)]].
Defined.

(** X5. For a [limit] that reads as an integer [n] above [-2^53], the limit
    sent to the store is never above 1000 and never 0, and it has no lower
    bound: a negative [n], which is the Number [parseInt] returns, binary64
    holding it exactly, is sent as it is, and what comes back is what the
    store makes of it. *)
Theorem readings_limit_sent {Db} {SB : Supabase Db} (req : Request) (db : Db) (n : Z) :
  parseInt (param "limit" (query req)) = Some n ->
  - 2 ^ 53 < n ->
  Z.min (requested_limit req) maxLimit <= 1000
  /\ Z.min (requested_limit req) maxLimit <> 0
  /\ (n < 0 ->
      integer_of (number_of_Z n) = Some n
      /\ Z.min (requested_limit req) maxLimit = n
      /\ fst (get_readings req db)
         = match select_recent n db with
           | Data data =>
               {| status := 200;
                  json := VObject [("success", VBool true);
                                   ("count", VNumber (number_of_Z (Z.of_nat (List.length data))));
                                   ("data", VArray (rev data))] |}
           | Error _ => error_response 500 "Error al obtener datos"
           end).
Proof.
  intros Hn Hlow.
  assert (Hnz : requested_limit req <> 0).
  { unfold requested_limit.
    destruct (parseInt (param "limit" (query req))) as [[|p|p]|]; discriminate. }
  unfold maxLimit. split; [lia|]. split; [lia|].
  intros Hneg.
  split; [apply number_of_Z_exact; lia|].
  assert (Hr : requested_limit req = n).
  { unfold requested_limit. rewrite Hn. destruct n; try reflexivity; lia. }
  assert (Hk : Z.min (requested_limit req) 1000 = n) by lia.
  split; [exact Hk|].
  unfold get_readings, try_catch, bind, await_read, throw, ret, maxLimit. rewrite Hk.
  destruct (select_recent n db); reflexivity.
Qed.

Lemma readings_limit_sent_witness :
  let req := query_request [("limit", QString "-5")] in
  Z.min (requested_limit req) maxLimit = -5
  /\ integer_of (number_of_Z (-5)) = Some (-5)
  /\ fst (get_readings req three_readings) = error_response 500 "Error al obtener datos".
Proof.
  pose proof (readings_limit_sent (query_request [("limit", QString "-5")])
                three_readings (-5) eq_refl ltac:(lia)) as (_ & _ & H).
  destruct (H ltac:(lia)) as (H1 & H2 & H3).
  split; [exact H2 | split; [exact H1 | exact H3]].
Defined.

(** X6. The latest-reading handler answers 200 exactly when the ordered
    query limited to one row returns exactly one row, and then with that
    row as [data]; in every other case it answers 500. The store is left
    as it is in both. *)
Theorem latest_succeeds_iff_one_row {Db} {SB : Supabase Db} (req : Request) (db : Db) :
  (status (fst (get_latest req db)) = 200
   <-> exists row, select_recent 1 db = Data [row])
  /\ (forall row, select_recent 1 db = Data [row] ->
        get_latest req db
        = ({| status := 200; json := VObject [("success", VBool true); ("data", row)] |}, db))
  /\ (status (fst (get_latest req db)) = 200 \/ status (fst (get_latest req db)) = 500)
  /\ snd (get_latest req db) = db.
Proof.
  unfold get_latest, try_catch, bind, await_read, throw, ret.
  destruct (select_recent 1 db) as [[|row [|row' rest]]|e]; simpl;
    (split; [split; [intros H; try discriminate H; eexists; reflexivity
                    | intros [r H]; try discriminate H; reflexivity]
            | split; [intros r H; try discriminate H; injection H as <-; reflexivity
                     | split; [auto | reflexivity]]]).
Qed.

(** ** Today's statistics: order and NaN *)

(** X7. Over values none of which is NaN, the [min] of the response is at
    most its [max], and every value lies between the two. *)
Theorem stats_min_le_max (xs : list number) :
  xs <> [] -> all_numbers xs ->
  (Math_min xs <=? Math_max xs)%float = true
  /\ (forall x, In x xs ->
        (Math_min xs <=? x)%float = true /\ (x <=? Math_max xs)%float = true).
Proof.
  intros Hne Hxs.
  destruct (Math_min_least xs Hne Hxs) as [_ Hmin].
  destruct (Math_max_greatest xs Hne Hxs) as [_ Hmax].
  split.
  - destruct xs as [|x rest]; [now elim Hne|].
    apply leb_trans with x; [apply Hmin | apply Hmax]; now left.
  - intros x Hx. split; [now apply Hmin | now apply Hmax].
Qed.

Lemma stats_min_le_max_witness :
  (Math_min [20; 25; 30]%float <=? Math_max [20; 25; 30]%float)%float = true.
Proof.
  refine (proj1 (stats_min_le_max [20; 25; 30]%float _ _)).
  - discriminate.
  - repeat constructor.
Defined.

Lemma add_nan (a b : number) :
  is_nan a = true \/ is_nan b = true -> is_nan (a + b)%float = true.
Proof.
  rewrite !is_nan_spec, add_spec. unfold SF64add.
  intros [H | H].
  - destruct (Prim2SF a); try discriminate. reflexivity.
  - destruct (Prim2SF b); try discriminate. destruct (Prim2SF a); reflexivity.
Qed.

Lemma div_nan (a b : number) : is_nan a = true -> is_nan (a / b)%float = true.
Proof.
  rewrite !is_nan_spec, div_spec. unfold SF64div.
  intros H. destruct (Prim2SF a); try discriminate. reflexivity.
Qed.

Lemma fold_add_nan (xs : list number) : forall acc,
  is_nan acc = true \/ (exists x, In x xs /\ is_nan x = true) ->
  is_nan (fold_left PrimFloat.add xs acc) = true.
Proof.
  induction xs as [|y rest IH]; intros acc H; simpl.
  - destruct H as [H | (x & [] & _)]. exact H.
  - apply IH. destruct H as [H | (x & [<- | Hin] & Hx)].
    + left. apply add_nan. now left.
    + left. apply add_nan. now right.
    + right. exists x. now split.
Qed.

Lemma min_from_nan (xs : list number) : forall lowest,
  (exists x, In x xs /\ is_nan x = true) -> min_from lowest xs = nan.
Proof.
  induction xs as [|y rest IH]; intros lowest (x & Hin & Hx); [destruct Hin|].
  simpl. destruct (is_nan y) eqn:Ey; [reflexivity|].
  apply IH. destruct Hin as [<- | Hin]; [congruence|]. exists x. now split.
Qed.

Lemma max_from_nan (xs : list number) : forall highest,
  (exists x, In x xs /\ is_nan x = true) -> max_from highest xs = nan.
Proof.
  induction xs as [|y rest IH]; intros highest (x & Hin & Hx); [destruct Hin|].
  simpl. destruct (is_nan y) eqn:Ey; [reflexivity|].
  apply IH. destruct Hin as [<- | Hin]; [congruence|]. exists x. now split.
Qed.

Lemma toFixed2_nan (x : number) : is_nan x = true -> toFixed2 x = "NaN".
Proof.
  rewrite is_nan_spec. unfold toFixed2.
  destruct (Prim2SF x); try discriminate. reflexivity.
Qed.

(** X8. One value that is NaN, as a row whose field is [null] or text that
    starts with no number gives, makes the three statistics of its column
    NaN: [min] and [max] are NaN and [avg] is the text ["NaN"], whatever the
    other values are. *)
Theorem stats_nan_spreads (xs : list number) (x : number) :
  In x xs -> isNaN x = true ->
  fst (extrema xs)
  = VObject [("min", VNumber nan); ("max", VNumber nan); ("avg", VString "NaN")].
Proof.
  intros Hin Hx. unfold isNaN in Hx.
  assert (Hex : exists y, In y xs /\ is_nan y = true) by (exists x; now split).
  unfold extrema, average, divide, sum, Math_min, Math_max. simpl.
  rewrite (min_from_nan xs infinity Hex), (max_from_nan xs neg_infinity Hex).
  rewrite toFixed2_nan; [reflexivity|].
  apply div_nan, fold_add_nan. now right.
Qed.

Lemma stats_nan_spreads_witness :
  column "temperature"
    [VObject [("temperature", VNumber 20%float)]; VObject [("temperature", VNull)]]
  = Normal [20%float; nan]
  /\ fst (extrema [20%float; nan])
     = VObject [("min", VNumber nan); ("max", VNumber nan); ("avg", VString "NaN")].
Proof.
  split; [reflexivity|].
  apply (stats_nan_spreads [20%float; nan] nan); [right; left; reflexivity | reflexivity].
Defined.

(** ** The routes *)

Lemma webhook_statuses {Db} {SB : Supabase Db}
    (WEBHOOK_SECRET : option string) (now : string) (req : Request) (db : Db) :
  In (status (fst (webhook_thingspeak WEBHOOK_SECRET now req db))) [201; 400; 401; 500].
Proof.
  unfold webhook_thingspeak, try_catch, bind, lift, ret, await_write.
  destruct (strict_neq _ _); [simpl; tauto|].
  destruct (get (body req) "temperature") as [temperature|]; [|simpl; tauto].
  destruct (get (body req) "humidity") as [humidity|]; [|simpl; tauto].
  destruct (get (body req) "created_at") as [created_at|]; [|simpl; tauto].
  destruct (is_undefined temperature || is_undefined humidity)%bool; [simpl; tauto|].
  destruct (parseFloat temperature) as [temp|]; [|simpl; tauto].
  destruct (parseFloat humidity) as [hum|]; [|simpl; tauto].
  destruct (invalid_reading temp hum); [simpl; tauto|].
  destruct (insert_select _ db) as [[data|e] db']; simpl; tauto.
Qed.

Lemma get_readings_frame {Db} {SB : Supabase Db} (req : Request) (db : Db) :
  snd (get_readings req db) = db
  /\ In (status (fst (get_readings req db))) [200; 500].
Proof.
  unfold get_readings, try_catch, bind, await_read, throw, ret.
  destruct (select_recent _ db); simpl; tauto.
Qed.

Lemma get_latest_frame {Db} {SB : Supabase Db} (req : Request) (db : Db) :
  snd (get_latest req db) = db
  /\ In (status (fst (get_latest req db))) [200; 500].
Proof.
  unfold get_latest, try_catch, bind, await_read, throw, ret.
  destruct (single (select_recent 1 db)); simpl; tauto.
Qed.

Lemma get_stats_today_frame {Db} {SB : Supabase Db} (today : string) (req : Request) (db : Db) :
  snd (get_stats_today today req db) = db
  /\ In (status (fst (get_stats_today today req db))) [200; 500].
Proof.
  unfold get_stats_today, try_catch, bind, await_read, throw, ret, lift.
  destruct (select_since today db) as [data|e]; [|simpl; tauto].
  destruct (today_stats data); simpl; tauto.
Qed.

(** X9. Whatever request reaches the routes, the status of the answer is
    one of 200, 201, 400, 401, 404 and 500, and the store is left as it is
    unless the request is a POST to [/webhook/thingspeak]: no other route
    writes. *)
Theorem app_writes_only_through_webhook {Db} {SB : Supabase Db}
    (WEBHOOK_SECRET : option string) (now today : string) (inc : Incoming) (db : Db) :
  In (status (fst (app WEBHOOK_SECRET now today inc db))) [200; 201; 400; 401; 404; 500]
  /\ ((is_post (verb inc) && matches "/webhook/thingspeak" (path inc))%bool = false ->
      snd (app WEBHOOK_SECRET now today inc db) = db).
Proof.
  unfold app.
  destruct (is_get (verb inc) && matches "/" (path inc))%bool.
  { split; [simpl; tauto | reflexivity]. }
  destruct (is_post (verb inc) && matches "/webhook/thingspeak" (path inc))%bool.
  { split; [|discriminate].
    pose proof (webhook_statuses WEBHOOK_SECRET now (request inc) db) as H.
    simpl in H |- *. tauto. }
  destruct (is_get (verb inc) && matches "/api/readings" (path inc))%bool.
  { destruct (get_readings_frame (request inc) db) as [Hf Hs].
    split; [simpl in Hs |- *; tauto | intros _; exact Hf]. }
  destruct (is_get (verb inc) && matches "/api/readings/latest" (path inc))%bool.
  { destruct (get_latest_frame (request inc) db) as [Hf Hs].
    split; [simpl in Hs |- *; tauto | intros _; exact Hf]. }
  destruct (is_get (verb inc) && matches "/api/stats/today" (path inc))%bool.
  { destruct (get_stats_today_frame today (request inc) db) as [Hf Hs].
    split; [simpl in Hs |- *; tauto | intros _; exact Hf]. }
  split; [simpl; tauto | reflexivity].
Qed.

(** X10. A request that comes to the routes with the wrong method reaches
    no handler: GET or HEAD on the path of the webhook, POST on any other
    path, and any other method on any path are answered 404 [{ error:
    'Endpoint no encontrado' }], with the store left as it is. OPTIONS and
    CONNECT do not come to the routes. *)
Theorem app_wrong_method {Db} {SB : Supabase Db}
    (WEBHOOK_SECRET : option string) (now today : string) (inc : Incoming) (db : Db) :
  routed (verb inc) ->
  (is_get (verb inc) = true /\ matches "/webhook/thingspeak" (path inc) = true)
  \/ (is_post (verb inc) = true /\ matches "/webhook/thingspeak" (path inc) = false)
  \/ (is_get (verb inc) = false /\ is_post (verb inc) = false) ->
  app WEBHOOK_SECRET now today inc db
  = ({| status := 404; json := VObject [("error", VString "Endpoint no encontrado")] |}, db).
Proof.
  unfold app. intros _ [[Hg Hm] | [[Hp Hm] | [Hg Hp]]].
  - assert (Hpost : is_post (verb inc) = false) by (destruct (verb inc); try discriminate; reflexivity).
    rewrite Hg, Hpost. unfold matches in *. apply String.eqb_eq in Hm. rewrite Hm.
    reflexivity.
  - assert (Hget : is_get (verb inc) = false) by (destruct (verb inc); try discriminate; reflexivity).
    rewrite Hget, Hp, Hm. reflexivity.
  - rewrite Hg, Hp. reflexivity.
Qed.

Lemma app_wrong_method_witness :
  app (Some "s3cret") noon midnight
    {| verb := GET; path := "/Webhook/ThingSpeak/";
       request := push (Some "s3cret") (VNumber 23.5%float) (VNumber 61%float) |} empty_db
  = ({| status := 404; json := VObject [("error", VString "Endpoint no encontrado")] |},
     empty_db)
  /\ app (Some "s3cret") noon midnight
       {| verb := OtherMethod "DELETE"; path := "/api/readings";
          request := query_request [] |} three_readings
     = ({| status := 404; json := VObject [("error", VString "Endpoint no encontrado")] |},
        three_readings).
Proof.
  split.
  - apply (app_wrong_method (Some "s3cret") noon midnight
             {| verb := GET; path := "/Webhook/ThingSpeak/";
                request := push (Some "s3cret") (VNumber 23.5%float) (VNumber 61%float) |}
             empty_db).
    + split; discriminate.
    + left. split; reflexivity.
  - apply (app_wrong_method (Some "s3cret") noon midnight
             {| verb := OtherMethod "DELETE"; path := "/api/readings";
                request := query_request [] |} three_readings).
    + split; discriminate.
    + right. right. split; reflexivity.
Defined.

(** ** The dashboard *)

Lemma substring_skip (a s : string) (n m : nat) :
  String.substring (String.length a + n) m (a ++ s) = String.substring n m s.
Proof. induction a as [|c a IH]; simpl; [reflexivity | exact IH]. Qed.

Lemma substring_whole_prefix (t r : string) :
  String.substring 0 (String.length t) (t ++ r) = t.
Proof.
  induction t as [|c t IH]; simpl.
  - destruct r; reflexivity.
  - now rewrite IH.
Qed.

(** X11. For a feed whose [created_at] is eleven ASCII characters (the
    date and its separator) followed by eight (the time of day) and
    anything else, the reading carries those eight characters as [fecha],
    and the two fields coerced as [humedad] and [temperatura]. *)
Theorem fecha_is_time_of_day
    (feed : value) (before time rest : string) (field1 field2 : value) (h t : number) :
  String.length before = 11%nat -> String.length time = 8%nat ->
  ascii_text before -> ascii_text time ->
  get feed "created_at" = Normal (VString (before ++ time ++ rest)) ->
  get feed "field1" = Normal field1 ->
  get feed "field2" = Normal field2 ->
  parseFloat field1 = Normal h ->
  parseFloat field2 = Normal t ->
  reading_of_feed feed
  = Normal (VObject [("fecha", VString time);
                     ("humedad", VNumber h);
                     ("temperatura", VNumber t)]).
Proof.
  intros Lb Lt _ _ Hc H1 H2 P1 P2.
  unfold reading_of_feed, and_then, slice. rewrite Hc, H1, H2, P1, P2.
  change (19 - 11)%nat with 8%nat.
  replace 11%nat with (String.length before + 0)%nat by (rewrite Lb; reflexivity).
  rewrite substring_skip, <- Lt, substring_whole_prefix. reflexivity.
Qed.

Lemma fecha_is_time_of_day_witness :
  reading_of_feed
    (VObject [("created_at", VString "2026-01-01T08:15:30Z");
              ("entry_id", VNumber 7%float);
              ("field1", VString "61.5");
              ("field2", VString "23.25")])
  = Normal (VObject [("fecha", VString "08:15:30");
                     ("humedad", VNumber 61.5%float);
                     ("temperatura", VNumber 23.25%float)]).
Proof.
  apply (fecha_is_time_of_day _ "2026-01-01T" "08:15:30" "Z"
           (VString "61.5") (VString "23.25") 61.5%float 23.25%float);
    try reflexivity; repeat constructor.
Defined.

Lemma readable_feed_reading (feed : value) :
  readable_feed feed -> exists r, reading_of_feed feed = Normal r.
Proof.
  intros (s & f1 & f2 & Hc & H1 & H2 & T1 & T2).
  unfold reading_of_feed, and_then, slice, parseFloat.
  rewrite Hc, H1, H2, T1, T2. eexists. reflexivity.
Qed.

Lemma map_throwing_readable (feeds : list value) :
  Forall readable_feed feeds ->
  map_throwing reading_of_feed feeds = Normal (map reading_or_undefined feeds).
Proof.
  induction 1 as [|feed rest Hf _ IH]; [reflexivity|].
  simpl. unfold reading_or_undefined at 1.
  destruct (readable_feed_reading feed Hf) as [r ->].
  unfold and_then at 1. rewrite IH. reflexivity.
Qed.

(** X12. When every feed of the answer has a string as [created_at] and
    fields whose text can be taken (numbers, strings, [null], missing), the
    update does not fail: the state becomes the readings of the feeds, one
    per feed and in their order, and what was in the state before is
    dropped. *)
Theorem fetch_replaces_data (json : value) (feeds data : list value) :
  get json "feeds" = Normal (VArray feeds) ->
  Forall readable_feed feeds ->
  fetchData (Normal json) data = map reading_or_undefined feeds
  /\ List.length (fetchData (Normal json) data) = List.length feeds
  /\ Forall (fun feed => exists r, reading_of_feed feed = Normal r) feeds.
Proof.
  intros Hj Hf.
  assert (E : fetchData (Normal json) data = map reading_or_undefined feeds).
  { unfold fetchData, and_then, map_value. rewrite Hj, (map_throwing_readable feeds Hf).
    reflexivity. }
  split; [exact E|]. split.
  - rewrite E. apply length_map.
  - revert Hf. apply Forall_impl. exact readable_feed_reading.
Qed.

Lemma fetch_replaces_data_witness :
  fetchData
    (Normal (VObject [("feeds",
                       VArray [VObject [("created_at", VString "2026-01-01T08:15:30Z");
                                        ("field1", VNull);
                                        ("field2", VString "23.25")]])]))
    [VString "old"]
  = [VObject [("fecha", VString "08:15:30");
              ("humedad", VNumber nan);
              ("temperatura", VNumber 23.25%float)]].
Proof.
  refine (proj1 (fetch_replaces_data
                   (VObject [("feeds",
                              VArray [VObject [("created_at", VString "2026-01-01T08:15:30Z");
                                               ("field1", VNull);
                                               ("field2", VString "23.25")]])])
                   [VObject [("created_at", VString "2026-01-01T08:15:30Z");
                             ("field1", VNull);
                             ("field2", VString "23.25")]]
                   [VString "old"] eq_refl _)).
  repeat constructor.
  exists "2026-01-01T08:15:30Z", VNull, (VString "23.25"). repeat split.
Defined.

Lemma map_throwing_throws (f : value -> completion value) (items : list value) (x : value) :
  In x items -> (exists e, f x = Throw e) -> exists e, map_throwing f items = Throw e.
Proof.
  induction items as [|y rest IH]; intros Hin Hx; [destruct Hin|].
  simpl. destruct Hin as [-> | Hin].
  - destruct Hx as [e ->]. exists e. reflexivity.
  - destruct (f y) as [r|e]; [|exists e; reflexivity]. simpl.
    destruct (IH Hin Hx) as [e ->]. exists e. reflexivity.
Qed.

(** X13. An update that fails changes nothing: when [fetch] or
    [response.json()] rejects, when [feeds] is not an array, or when one
    feed of the array cannot be read (its [created_at] is [null] or
    missing, for one), the state after [fetchData] is the state before;
    the readings of the other feeds are not kept. *)
Theorem fetch_failure_keeps_data (fetched : completion value) (data : list value) :
  (exists e, fetched = Throw e)
  \/ (exists json feeds,
         fetched = Normal json /\ get json "feeds" = Normal feeds
         /\ forall items, feeds <> VArray items)
  \/ (exists json items feed e,
         fetched = Normal json /\ get json "feeds" = Normal (VArray items)
         /\ In feed items /\ reading_of_feed feed = Throw e) ->
  fetchData fetched data = data.
Proof.
  unfold fetchData.
  intros [(e & ->) | [(json & feeds & -> & Hj & Hn) | (json & items & feed & e & -> & Hj & Hin & Hf)]].
  - reflexivity.
  - simpl. rewrite Hj. simpl.
    destruct feeds; try reflexivity. now elim (Hn items).
  - simpl. rewrite Hj. simpl.
    destruct (map_throwing_throws reading_of_feed items feed Hin (ex_intro _ e Hf)) as [e' ->].
    reflexivity.
Qed.

Lemma fetch_failure_keeps_data_witness :
  fetchData
    (Normal (VObject [("feeds",
                       VArray [VObject [("created_at", VString "2026-01-01T08:15:30Z");
                                        ("field1", VString "61.5");
                                        ("field2", VString "23.25")];
                               VObject [("created_at", VNull);
                                        ("field1", VString "60");
                                        ("field2", VString "24")]])]))
    [VString "old"]
  = [VString "old"].
Proof.
  apply fetch_failure_keeps_data. right. right.
  exists (VObject [("feeds",
                    VArray [VObject [("created_at", VString "2026-01-01T08:15:30Z");
                                     ("field1", VString "61.5");
                                     ("field2", VString "23.25")];
                            VObject [("created_at", VNull);
                                     ("field1", VString "60");
                                     ("field2", VString "24")]])]).
  eexists. exists (VObject [("created_at", VNull);
                            ("field1", VString "60");
                            ("field2", VString "24")]), TypeError.
  repeat split. right. left. reflexivity.
Defined.

Lemma ultimo_snoc (data : list value) (r : value) : ultimo (data ++ [r])%list = r.
Proof.
  unfold ultimo. rewrite last_last. destruct data; reflexivity.
Qed.

(** X14. After an update that succeeds, what is shown is the temperature
    and the humidity of the last feed of the answer; after one that brings
    an empty array it is the loading text, whatever was shown before. *)
Theorem dashboard_shows_last_feed (json : value) (data : list value) :
  (forall (feeds : list value) (feed : value),
      get json "feeds" = Normal (VArray (feeds ++ [feed])) ->
      Forall readable_feed (feeds ++ [feed])%list ->
      exists (fecha : value) (h t : number),
        reading_of_feed feed
        = Normal (VObject [("fecha", fecha);
                           ("humedad", VNumber h);
                           ("temperatura", VNumber t)])
        /\ shown (fetchData (Normal json) data)
           = Normal (ShowReading (VNumber t) (VNumber h)))
  /\ (get json "feeds" = Normal (VArray []) ->
      shown (fetchData (Normal json) data) = Normal Loading).
Proof.
  split.
  - intros feeds feed Hj Hf.
    assert (E : fetchData (Normal json) data
                = (map reading_or_undefined feeds ++ [reading_or_undefined feed])%list).
    { unfold fetchData, and_then, map_value.
      rewrite Hj, (map_throwing_readable _ Hf), map_app. reflexivity. }
    apply Forall_app in Hf. destruct Hf as [_ Hf]. inversion Hf as [|? ? Hfeed _]; subst.
    destruct Hfeed as (s & f1 & f2 & Hc & H1 & H2 & T1 & T2).
    assert (R : reading_of_feed feed
                = Normal (VObject [("fecha", VString (String.substring 11 (19 - 11) s));
                                   ("humedad", VNumber (parseFloat_text f1));
                                   ("temperatura", VNumber (parseFloat_text f2))])).
    { unfold reading_of_feed, and_then, slice, parseFloat.
      rewrite Hc, H1, H2, T1, T2. reflexivity. }
    eexists _, _, _. split; [exact R|].
    rewrite E. unfold shown. rewrite ultimo_snoc.
    unfold reading_or_undefined. rewrite R. reflexivity.
  - intros Hj. unfold fetchData, and_then, map_value. rewrite Hj. reflexivity.
Qed.

(** ** The firmware *)

(** X15. A pass of [loop] sets a field only to a value that is not NaN,
    field 1 to the humidity and field 2 to the temperature; it writes to
    ThingSpeak exactly when neither reading is NaN; and when one is, it
    ends without any [delay]. *)
Theorem loop_sends_only_numbers (humedad temperatura : spec_float) (written : Z) :
  (forall n x, In (SetField n x) (loop humedad temperatura written) ->
     isnan x = false /\ ((n = 1 /\ x = humedad) \/ (n = 2 /\ x = temperatura)))
  /\ ((exists channel key, In (WriteFields channel key) (loop humedad temperatura written))
      <-> isnan humedad = false /\ isnan temperatura = false)
  /\ (isnan humedad = true \/ isnan temperatura = true ->
      forall ms, ~ In (Delay ms) (loop humedad temperatura written)).
Proof.
  unfold loop.
  destruct (isnan humedad) eqn:Eh; [|destruct (isnan temperatura) eqn:Et]; simpl.
  - split; [|split].
    + intros n x [H | []]. discriminate.
    + split; [intros (c & k & [H | []]); discriminate | intros [H _]; discriminate].
    + intros _ ms [H | []]. discriminate.
  - split; [|split].
    + intros n x [H | []]. discriminate.
    + split; [intros (c & k & [H | []]); discriminate | intros [_ H]; discriminate].
    + intros _ ms [H | []]. discriminate.
  - split; [|split].
    + intros n x H.
      repeat (destruct H as [H | H]; try discriminate H);
        try (injection H as <- <-); try (destruct H); auto.
    + split; [auto|]. intros _. exists myChannelNumber, myWriteAPIKey. tauto.
    + intros [H | H]; discriminate.
Qed.

Lemma spaced_pass (humedad temperatura : spec_float) (written : Z) (rest : list action) :
  spaced true (loop humedad temperatura written ++ rest) = spaced true rest.
Proof.
  unfold loop. destruct (isnan humedad || isnan temperatura)%bool; reflexivity.
Qed.

(** X16. Over any number of passes, whatever the sensor and ThingSpeak
    return, two writes to ThingSpeak are always separated by a [delay] of
    at least 15 seconds. *)
Theorem passes_spaced (inputs : list (spec_float * spec_float * Z)) :
  spaced true (passes inputs) = true.
Proof.
  induction inputs as [|[[h t] w] rest IH]; [reflexivity|].
  unfold passes in *. simpl. rewrite spaced_pass. exact IH.
Qed.

(** ** The guard without a configured secret *)

(** X17. When [process.env.WEBHOOK_SECRET] is not set, the guard compares
    the header with [undefined]: a push that carries the header, whatever
    its value, is answered 401, and a push without the header passes and is
    validated and stored like an authorized one. *)
Theorem webhook_without_configured_secret {Db} {SB : Supabase Db}
    (now : string) (req : Request) (db : Db) :
  (forall s, header "x-webhook-secret" (headers req) = Some s ->
     webhook_thingspeak None now req db
     = ({| status := 401; json := VObject [("error", VString "Unauthorized")] |}, db))
  /\ (header "x-webhook-secret" (headers req) = None ->
      forall temperature humidity created_at,
        get (body req) "temperature" = Normal temperature ->
        get (body req) "humidity" = Normal humidity ->
        get (body req) "created_at" = Normal created_at ->
        webhook_thingspeak None now req db
        = validated now temperature humidity created_at db).
Proof.
  split.
  - intros s Hs. apply webhook_guard. rewrite Hs. discriminate.
  - intros Hh temperature humidity created_at Ht Hu Hc.
    unfold webhook_thingspeak, validated, try_catch, bind, lift, ret, await_write.
    rewrite Hh, (strict_neq_same None), Ht, Hu, Hc.
    destruct (is_undefined temperature || is_undefined humidity)%bool; [reflexivity|].
    destruct (parseFloat temperature) as [temp|]; [|reflexivity].
    destruct (parseFloat humidity) as [hum|]; [|reflexivity].
    destruct (invalid_reading temp hum); [reflexivity|].
    destruct (insert_select _ db) as [[data|e] db']; reflexivity.
Qed.
